(** * Data-Science-Salaries: the enrichment and filtering pipeline of [app.py]

    A shallow embedding of [load_data] (with its local functions
    [get_region] and [categorize_job]) and of the [filtered_df] selection,
    together with the few pandas and Python primitives they are built from.

    Modelling conventions.
    - A Python [str] is a [string]; [str.lower] is modelled on the ASCII
      range (the letters [A]..[Z]), every other character is left as it is.
    - A table cell is a [value]: a string, an integer or the missing value
      [NaN].
    - A [DataFrame] is stored column-wise, as pandas does: an index length
      and an ordered association list from column names to [Series].
    - Python exceptions are results of type [result]: [Raise e] aborts the
      rest of the computation. *)

From Stdlib Require Import String Ascii List ZArith Bool Arith Lia.
Import ListNotations.

Open Scope string_scope.

(* ================================================================= *)
(** ** Values and exceptions *)

Inductive value : Type :=
| VStr (s : string)
| VInt (z : Z)
| NaN.

Definition value_eqb (a b : value) : bool :=
  match a, b with
  | VStr s, VStr t => String.eqb s t
  | VInt x, VInt y => Z.eqb x y
  | NaN, NaN => true
  | _, _ => false
  end.

Inductive exn : Type :=
| KeyError (column : string)
| AttributeError
| TypeError.

Inductive result (A : Type) : Type :=
| Ok (a : A)
| Raise (e : exn).

Arguments Ok {A} a.
Arguments Raise {A} e.

Definition bind {A B : Type} (m : result A) (k : A -> result B) : result B :=
  match m with
  | Ok a => k a
  | Raise e => Raise e
  end.

Notation "x <- m ;; k" := (bind m (fun x => k))
  (at level 61, m at next level, right associativity).

Fixpoint mapM {A B : Type} (f : A -> result B) (l : list A) : result (list B) :=
  match l with
  | [] => Ok []
  | x :: t => y <- f x ;; r <- mapM f t ;; Ok (y :: r)
  end.

(* ================================================================= *)
(** ** Python string primitives *)

Module Py.

(** [c.lower()] for one character of the ASCII range. *)
Definition lower_ascii (c : ascii) : ascii :=
  let n := nat_of_ascii c in
  if (65 <=? n)%nat && (n <=? 90)%nat then ascii_of_nat (n + 32) else c.

(** [s.lower()] *)
Fixpoint lower (s : string) : string :=
  match s with
  | EmptyString => EmptyString
  | String c t => String (lower_ascii c) (lower t)
  end.

(** [hay.startswith(needle)] *)
Fixpoint startswith (needle hay : string) : bool :=
  match needle, hay with
  | EmptyString, _ => true
  | String a n, String b h => Ascii.eqb a b && startswith n h
  | String _ _, EmptyString => false
  end.

(** [needle in hay] for two strings: a raw substring test. *)
Fixpoint contains (needle hay : string) : bool :=
  startswith needle hay ||
  match hay with
  | EmptyString => false
  | String _ h => contains needle h
  end.

(** The relation [contains] decides. *)
Definition substring_of (needle hay : string) : Prop :=
  exists pre post, hay = pre ++ needle ++ post.

(** [x in l] for a list of strings [l] and an arbitrary cell [x]:
    element-wise [==], which no string satisfies against a number or
    against [NaN]. *)
Definition in_list (x : value) (l : list string) : bool :=
  match x with
  | VStr s => existsb (String.eqb s) l
  | _ => false
  end.

End Py.

(* ================================================================= *)
(** ** The pandas primitives used by the program *)

Definition Series : Type := list value.

Record DataFrame : Type := mkDF {
  nrows : nat;
  columns : list (string * Series)
}.

Module Pd.

(** Lookup in a Python [dict] literal with string keys. *)
Fixpoint dict_get (d : list (string * string)) (k : string) : option string :=
  match d with
  | [] => None
  | (k', v) :: t => if String.eqb k' k then Some v else dict_get t k
  end.

(** One cell of [Series.map(d)]: a cell that is no key of [d] becomes
    the missing value. *)
Definition map_cell (d : list (string * string)) (v : value) : value :=
  match v with
  | VStr k => match dict_get d k with Some x => VStr x | None => NaN end
  | _ => NaN
  end.

Definition series_map (d : list (string * string)) (s : Series) : Series :=
  map (map_cell d) s.

(** [Series.apply(f)] calls [f] on every cell, in order. *)
Definition series_apply (f : value -> result value) (s : Series) : result Series :=
  mapM f s.

(** [bins.searchsorted(x, side='left')] for increasing [bins]: the number
    of edges strictly below [x]. *)
Definition searchsorted_left (bins : list Z) (x : Z) : nat :=
  length (filter (fun b => (b <? x)%Z) bins).

(** One numeric cell of [pd.cut(_, bins, labels)] with the defaults
    [right=True], [include_lowest=False]: the cell falls in the interval
    [(bins[i-1], bins[i]]] numbered by [searchsorted]; positions [0] and
    [len(bins)] are outside every interval and give the missing value. *)
Definition cut_int (bins : list Z) (labels : list string) (x : Z) : value :=
  let ids := searchsorted_left bins x in
  if (ids =? 0)%nat || (ids =? length bins)%nat then NaN
  else nth (ids - 1) (map VStr labels) NaN.

Definition cut_cell (bins : list Z) (labels : list string) (v : value) : result value :=
  match v with
  | VInt x => Ok (cut_int bins labels x)
  | NaN => Ok NaN
  | VStr _ => Raise TypeError
  end.

Definition cut (s : Series) (bins : list Z) (labels : list string) : result Series :=
  mapM (cut_cell bins labels) s.

(** [Series.isin(values)]: membership by equality, the missing value
    matching itself. *)
Definition isin_cell (values : list value) (v : value) : bool :=
  existsb (value_eqb v) values.

Definition isin (s : Series) (values : list value) : list bool :=
  map (isin_cell values) s.

(** [a & b] on two boolean series over the same index. *)
Fixpoint band (a b : list bool) : list bool :=
  match a, b with
  | x :: a', y :: b' => (x && y) :: band a' b'
  | _, _ => []
  end.

(** [s[mask]]: the cells at the positions where [mask] holds. *)
Fixpoint select {A : Type} (mask : list bool) (s : list A) : list A :=
  match mask, s with
  | b :: m, x :: t => if b then x :: select m t else select m t
  | _, _ => []
  end.

Definition count_true (mask : list bool) : nat :=
  length (filter (fun b : bool => b) mask).

(** [df[name]] *)
Fixpoint lookup (cols : list (string * Series)) (name : string) : option Series :=
  match cols with
  | [] => None
  | (c, s) :: t => if String.eqb c name then Some s else lookup t name
  end.

Definition getitem (df : DataFrame) (name : string) : result Series :=
  match lookup (columns df) name with
  | Some s => Ok s
  | None => Raise (KeyError name)
  end.

(** [df[name] = s]: an existing column is overwritten where it stands, a
    new one is appended. *)
Fixpoint assign (cols : list (string * Series)) (name : string) (s : Series)
  : list (string * Series) :=
  match cols with
  | [] => [(name, s)]
  | (c, s') :: t =>
      if String.eqb c name then (c, s) :: t else (c, s') :: assign t name s
  end.

Definition setitem (df : DataFrame) (name : string) (s : Series) : DataFrame :=
  mkDF (nrows df) (assign (columns df) name s).

(** [df[mask]] for a boolean series [mask] *)
Definition getitem_mask (df : DataFrame) (mask : list bool) : DataFrame :=
  mkDF (count_true mask)
       (map (fun cs => (fst cs, select mask (snd cs))) (columns df)).

Definition column_names (df : DataFrame) : list string :=
  map fst (columns df).

(** Every column is as long as the index. *)
Definition wf (df : DataFrame) : bool :=
  forallb (fun cs => (length (snd cs) =? nrows df)%nat) (columns df).

(** [Series.unique()]: the distinct cells in the order of their first
    appearance, the missing value counted as one value. *)
Fixpoint unique_from (seen : list value) (s : Series) : list value :=
  match s with
  | [] => []
  | v :: t =>
      if existsb (value_eqb v) seen then unique_from seen t
      else v :: unique_from (v :: seen) t
  end.

Definition unique (s : Series) : list value := unique_from [] s.

End Pd.

(* ================================================================= *)
(** ** [load_data] *)

Definition exp_level_map : list (string * string) :=
  [("EN", "Entry-level"); ("MI", "Mid-level");
   ("SE", "Senior-level"); ("EX", "Executive-level")].

Definition emp_type_map : list (string * string) :=
  [("FT", "Full-time"); ("PT", "Part-time");
   ("CT", "Contract"); ("FL", "Freelance")].

Definition company_size_map : list (string * string) :=
  [("S", "Small"); ("M", "Medium"); ("L", "Large")].

Definition remote_bins : list Z := [-1; 0; 50; 100]%Z.
Definition remote_labels : list string := ["On-site"; "Hybrid"; "Full-remote"].

Definition americas : list string := ["US"; "CA"; "MX"; "BR"; "CO"].
Definition europe : list string :=
  ["GB"; "DE"; "ES"; "FR"; "NL"; "PT"; "CH"; "IE"; "AT"; "SI"; "HR"].
Definition asia : list string := ["IN"; "SG"; "JP"; "HK"; "IL"; "AE"; "PK"; "TH"].
Definition oceania : list string := ["AU"; "NZ"].
Definition africa : list string := ["NG"; "KE"; "GH"].

Definition get_region (country_code : value) : string :=
  if Py.in_list country_code americas then "Americas"
  else if Py.in_list country_code europe then "Europe"
  else if Py.in_list country_code asia then "Asia"
  else if Py.in_list country_code oceania then "Oceania"
  else if Py.in_list country_code africa then "Africa"
  else "Other".

(** The body of [categorize_job] once [title.lower()] has been taken. *)
Definition categorize_lowered (title : string) : string :=
  if Py.contains "data scientist" title then "Data Scientist"
  else if Py.contains "data engineer" title then "Data Engineer"
  else if Py.contains "data analyst" title then "Data Analyst"
  else if Py.contains "machine learning" title || Py.contains "ml" title
       then "Machine Learning Engineer"
  else if Py.contains "research" title || Py.contains "scientist" title
       then "Research Scientist"
  else if Py.contains "analytics" title then "Analytics Engineer"
  else if Py.contains "architect" title then "Data Architect"
  else if Py.contains "manager" title || Py.contains "lead" title
          || Py.contains "director" title || Py.contains "head" title
       then "Management"
  else "Other".

(** [title.lower()] exists for strings only. *)
Definition categorize_job (title : value) : result string :=
  match title with
  | VStr t => Ok (categorize_lowered (Py.lower t))
  | _ => Raise AttributeError
  end.

Definition load_data (raw : DataFrame) : result DataFrame :=
  let df := raw in
  s <- Pd.getitem df "experience_level" ;;
  let df := Pd.setitem df "experience_level" (Pd.series_map exp_level_map s) in
  s <- Pd.getitem df "employment_type" ;;
  let df := Pd.setitem df "employment_type" (Pd.series_map emp_type_map s) in
  s <- Pd.getitem df "company_size" ;;
  let df := Pd.setitem df "company_size" (Pd.series_map company_size_map s) in
  s <- Pd.getitem df "remote_ratio" ;;
  c <- Pd.cut s remote_bins remote_labels ;;
  let df := Pd.setitem df "remote_work_type" c in
  s <- Pd.getitem df "company_location" ;;
  r <- Pd.series_apply (fun v => Ok (VStr (get_region v))) s ;;
  let df := Pd.setitem df "region" r in
  s <- Pd.getitem df "job_title" ;;
  j <- Pd.series_apply
         (fun v => c <- categorize_job v ;; Ok (VStr c)) s ;;
  let df := Pd.setitem df "job_category" j in
  Ok df.

(** The derived [remote_work_type] of one integer [remote_ratio]. *)
Definition remote_work_type (r : Z) : value :=
  Pd.cut_int remote_bins remote_labels r.

(* ================================================================= *)
(** ** [filtered_df] *)

Record selection : Type := mkSel {
  selected_years : list value;
  selected_exp_levels : list value;
  selected_job_cats : list value;
  selected_regions : list value;
  selected_company_sizes : list value;
  selected_remote_types : list value
}.

Definition filter_mask (df : DataFrame) (sel : selection) : result (list bool) :=
  y <- Pd.getitem df "work_year" ;;
  e <- Pd.getitem df "experience_level" ;;
  j <- Pd.getitem df "job_category" ;;
  r <- Pd.getitem df "region" ;;
  c <- Pd.getitem df "company_size" ;;
  w <- Pd.getitem df "remote_work_type" ;;
  Ok (Pd.band
        (Pd.band
           (Pd.band
              (Pd.band
                 (Pd.band (Pd.isin y (selected_years sel))
                          (Pd.isin e (selected_exp_levels sel)))
                 (Pd.isin j (selected_job_cats sel)))
              (Pd.isin r (selected_regions sel)))
           (Pd.isin c (selected_company_sizes sel)))
        (Pd.isin w (selected_remote_types sel))).

Definition filtered_df (df : DataFrame) (sel : selection) : result DataFrame :=
  m <- filter_mask df sel ;;
  Ok (Pd.getitem_mask df m).

(* ================================================================= *)
(** ** The sidebar *)

(** The default of the six multiselect widgets: every distinct value of the
    widget's column, the years passed through [sorted].  The builtin
    [sorted] is the parameter [py_sorted]; it may raise. *)
Definition default_selection (py_sorted : list value -> result (list value))
  (df : DataFrame) : result selection :=
  y <- Pd.getitem df "work_year" ;;
  years <- py_sorted (Pd.unique y) ;;
  e <- Pd.getitem df "experience_level" ;;
  j <- Pd.getitem df "job_category" ;;
  r <- Pd.getitem df "region" ;;
  c <- Pd.getitem df "company_size" ;;
  w <- Pd.getitem df "remote_work_type" ;;
  Ok (mkSel years (Pd.unique e) (Pd.unique j) (Pd.unique r)
            (Pd.unique c) (Pd.unique w)).

(** [sorted] on a list of integers, by insertion; a list with another
    cell is not in the scope of this instance. *)
Fixpoint insert_int (x : Z) (l : list Z) : list Z :=
  match l with
  | [] => [x]
  | y :: t => if (x <=? y)%Z then x :: l else y :: insert_int x t
  end.

Fixpoint as_ints (l : list value) : option (list Z) :=
  match l with
  | [] => Some []
  | VInt z :: t => option_map (cons z) (as_ints t)
  | _ :: _ => None
  end.

Definition sorted_ints (l : list value) : result (list value) :=
  match as_ints l with
  | Some zs => Ok (map VInt (fold_right insert_int [] zs))
  | None => Raise TypeError
  end.

(* ================================================================= *)
(** ** Reference definitions the program is compared with *)

(** The ordered rule list of job categories: the keywords of a rule and its
    label.  The first rule one of whose keywords occurs in the lower-cased
    title gives the category. *)
Definition job_rules : list (list string * string) :=
  [ (["data scientist"], "Data Scientist");
    (["data engineer"], "Data Engineer");
    (["data analyst"], "Data Analyst");
    (["machine learning"; "ml"], "Machine Learning Engineer");
    (["research"; "scientist"], "Research Scientist");
    (["analytics"], "Analytics Engineer");
    (["architect"], "Data Architect");
    (["manager"; "lead"; "director"; "head"], "Management") ].

Definition rule_matches (title : string) (rule : list string * string) : bool :=
  existsb (fun keyword => Py.contains keyword title) (fst rule).

Definition first_match (title : string) : string :=
  match find (rule_matches title) job_rules with
  | Some rule => snd rule
  | None => "Other"
  end.

Definition job_category_spec (title : string) : string :=
  first_match (Py.lower title).

(** The five named country-code sets, with their labels. *)
Definition region_sets : list (string * list string) :=
  [ ("Americas", americas); ("Europe", europe); ("Asia", asia);
    ("Oceania", oceania); ("Africa", africa) ].

Definition disjoint (a b : list string) : Prop :=
  forall c, In c a -> In c b -> False.

(** [c] lies in the bucket called [label]: one of the five named sets, or
    the default bucket of the codes no named set holds. *)
Definition in_bucket (c label : string) : Prop :=
  (exists set, In (label, set) region_sets /\ In c set)
  \/ (label = "Other" /\ forall l set, In (l, set) region_sets -> ~ In c set).

(** The three recoded columns with their lookup tables. *)
Definition recode_tables : list (string * list (string * string)) :=
  [ ("experience_level", exp_level_map);
    ("employment_type", emp_type_map);
    ("company_size", company_size_map) ].

Definition is_str (v : value) : bool :=
  match v with VStr _ => true | _ => false end.

Definition is_numeric (v : value) : bool :=
  match v with VStr _ => false | _ => true end.

(** The table has a column [name] all of whose cells satisfy [p]. *)
Definition has_column (df : DataFrame) (name : string) (p : value -> bool) : bool :=
  match Pd.lookup (columns df) name with
  | Some s => forallb p s
  | None => false
  end.

Definition any_cell (v : value) : bool := true.

(** The input contract of the enrichment: the six columns it reads are
    there, the remote ratios are numbers or missing, the job titles are
    strings. *)
Definition raw_schema (df : DataFrame) : bool :=
  has_column df "experience_level" any_cell
  && has_column df "employment_type" any_cell
  && has_column df "company_size" any_cell
  && has_column df "remote_ratio" is_numeric
  && has_column df "company_location" any_cell
  && has_column df "job_title" is_str.

(** The six columns the filter reads. *)
Definition filter_dimensions : list string :=
  [ "work_year"; "experience_level"; "job_category"; "region";
    "company_size"; "remote_work_type" ].

Definition enriched_schema (df : DataFrame) : bool :=
  forallb (fun name => has_column df name any_cell) filter_dimensions.

(** The mask of [filtered_df], from the six columns read. *)
Definition mask_of (sel : selection) (y e j r c w : Series) : list bool :=
  Pd.band
    (Pd.band
       (Pd.band
          (Pd.band
             (Pd.band (Pd.isin y (selected_years sel))
                      (Pd.isin e (selected_exp_levels sel)))
             (Pd.isin j (selected_job_cats sel)))
          (Pd.isin r (selected_regions sel)))
       (Pd.isin c (selected_company_sizes sel)))
    (Pd.isin w (selected_remote_types sel)).

(** The columns of the enriched table, from the columns read. *)
Definition enriched_columns (cols : list (string * Series))
  (e m z c r j : Series) : list (string * Series) :=
  Pd.assign
    (Pd.assign
       (Pd.assign
          (Pd.assign
             (Pd.assign
                (Pd.assign cols "experience_level" (Pd.series_map exp_level_map e))
                "employment_type" (Pd.series_map emp_type_map m))
             "company_size" (Pd.series_map company_size_map z))
          "remote_work_type" c)
       "region" r)
    "job_category" j.

(** *** The row view of a table *)

Definition row : Type := list (string * value).

Definition head_row (cols : list (string * Series)) : row :=
  map (fun cs => (fst cs, hd NaN (snd cs))) cols.

Definition tail_columns (cols : list (string * Series)) : list (string * Series) :=
  map (fun cs => (fst cs, tl (snd cs))) cols.

Fixpoint rows_of (n : nat) (cols : list (string * Series)) : list row :=
  match n with
  | O => []
  | S k => head_row cols :: rows_of k (tail_columns cols)
  end.

(** The rows of a table, in index order; a row lists its cells by column
    name, in column order. *)
Definition rows (df : DataFrame) : list row :=
  rows_of (nrows df) (columns df).

Fixpoint row_get (r : row) (name : string) : option value :=
  match r with
  | [] => None
  | (c, v) :: t => if String.eqb c name then Some v else row_get t name
  end.

(** The row's value in dimension [name] is a member of [allowed]. *)
Definition row_member (r : row) (name : string) (allowed : list value) : bool :=
  match row_get r name with
  | Some v => existsb (value_eqb v) allowed
  | None => false
  end.

(** The row's value in every one of the six dimensions is a member of the
    dimension's allowed set. *)
Definition row_passes (sel : selection) (r : row) : bool :=
  row_member r "work_year" (selected_years sel)
  && row_member r "experience_level" (selected_exp_levels sel)
  && row_member r "job_category" (selected_job_cats sel)
  && row_member r "region" (selected_regions sel)
  && row_member r "company_size" (selected_company_sizes sel)
  && row_member r "remote_work_type" (selected_remote_types sel).

(** One of the six allowed sets is empty. *)
Definition some_set_empty (sel : selection) : bool :=
  existsb (fun l : list value => match l with [] => true | _ => false end)
    [ selected_years sel; selected_exp_levels sel; selected_job_cats sel;
      selected_regions sel; selected_company_sizes sel;
      selected_remote_types sel ].

(** *** Columns and label domains of the enrichment *)

(** The columns [load_data] reads, in the order it reads them. *)
Definition required_columns : list string :=
  [ "experience_level"; "employment_type"; "company_size";
    "remote_ratio"; "company_location"; "job_title" ].

(** The columns [load_data] assigns. *)
Definition recoded_columns : list string :=
  [ "experience_level"; "employment_type"; "company_size" ].

Definition derived_columns : list string :=
  [ "remote_work_type"; "region"; "job_category" ].

Definition region_labels : list string :=
  [ "Americas"; "Europe"; "Asia"; "Oceania"; "Africa"; "Other" ].

Definition job_labels : list string :=
  [ "Data Scientist"; "Data Engineer"; "Data Analyst";
    "Machine Learning Engineer"; "Research Scientist"; "Analytics Engineer";
    "Data Architect"; "Management"; "Other" ].

(** The cell is the missing value or one of the labels. *)
Definition label_or_missing (labels : list string) (v : value) : bool :=
  match v with
  | VStr s => existsb (String.eqb s) labels
  | NaN => true
  | VInt _ => false
  end.

Definition is_label (labels : list string) (v : value) : bool :=
  match v with
  | VStr s => existsb (String.eqb s) labels
  | _ => false
  end.

Definition is_missing (v : value) : bool :=
  match v with NaN => true | _ => false end.

(** Column [name] is absent from the table. *)
Definition absent (df : DataFrame) (name : string) : bool :=
  match Pd.lookup (columns df) name with Some _ => false | None => true end.

(** The cell each derived column holds for a cell of its source column. *)
Definition remote_cell (v : value) : value :=
  match v with
  | VInt r => remote_work_type r
  | _ => NaN
  end.

Definition region_cell (v : value) : value := VStr (get_region v).

Definition job_cell (v : value) : value :=
  match categorize_job v with
  | Ok c => VStr c
  | Raise _ => NaN
  end.

(** *** Selections as sets *)

Definition member (v : value) (allowed : list value) : bool :=
  existsb (value_eqb v) allowed.

(** The values of [a] that are also in [b]. *)
Definition inter (a b : list value) : list value :=
  filter (fun v => member v b) a.

Definition sel_inter (s1 s2 : selection) : selection :=
  mkSel (inter (selected_years s1) (selected_years s2))
        (inter (selected_exp_levels s1) (selected_exp_levels s2))
        (inter (selected_job_cats s1) (selected_job_cats s2))
        (inter (selected_regions s1) (selected_regions s2))
        (inter (selected_company_sizes s1) (selected_company_sizes s2))
        (inter (selected_remote_types s1) (selected_remote_types s2)).

Definition subset (a b : list value) : Prop :=
  forall v, member v a = true -> member v b = true.

(** Every allowed set of [s1] is included in that of [s2]. *)
Definition sel_subset (s1 s2 : selection) : Prop :=
  subset (selected_years s1) (selected_years s2)
  /\ subset (selected_exp_levels s1) (selected_exp_levels s2)
  /\ subset (selected_job_cats s1) (selected_job_cats s2)
  /\ subset (selected_regions s1) (selected_regions s2)
  /\ subset (selected_company_sizes s1) (selected_company_sizes s2)
  /\ subset (selected_remote_types s1) (selected_remote_types s2).

(** The two allowed sets hold the same cells of column [name]. *)
Definition agree_on (df : DataFrame) (name : string) (a b : list value) : Prop :=
  forall s v, Pd.lookup (columns df) name = Some s -> In v s ->
              member v a = member v b.

Definition sel_agree (df : DataFrame) (s1 s2 : selection) : Prop :=
  agree_on df "work_year" (selected_years s1) (selected_years s2)
  /\ agree_on df "experience_level" (selected_exp_levels s1) (selected_exp_levels s2)
  /\ agree_on df "job_category" (selected_job_cats s1) (selected_job_cats s2)
  /\ agree_on df "region" (selected_regions s1) (selected_regions s2)
  /\ agree_on df "company_size" (selected_company_sizes s1) (selected_company_sizes s2)
  /\ agree_on df "remote_work_type" (selected_remote_types s1) (selected_remote_types s2).

(** *** Sample tables *)

(** A raw table of two records; the second has an experience code that
    is no key of its table and a country code of no named set. *)
Definition sample_raw : DataFrame :=
  mkDF 2
    [ ("work_year", [VInt 2023; VInt 2022]);
      ("experience_level", [VStr "SE"; VStr "XX"]);
      ("employment_type", [VStr "FT"; VStr "CT"]);
      ("job_title", [VStr "Senior Data Analyst"; VStr "Html Developer"]);
      ("salary_in_usd", [VInt 120000; VInt 80000]);
      ("remote_ratio", [VInt 0; VInt 100]);
      ("company_location", [VStr "US"; VStr "ZZ"]);
      ("company_size", [VStr "M"; VStr "L"]) ]%Z.

(** The enrichment of the sample, a selection, and the filtered sample. *)
Definition empty_table : DataFrame := mkDF 0 [].

Definition sample_enriched : DataFrame :=
  match load_data sample_raw with
  | Ok df => df
  | Raise _ => empty_table
  end.

Definition sample_selection : selection :=
  mkSel [VInt 2022; VInt 2023]
        [VStr "Senior-level"; VStr "Mid-level"]
        [VStr "Data Analyst"; VStr "Machine Learning Engineer"]
        [VStr "Americas"; VStr "Other"]
        [VStr "Medium"; VStr "Large"]
        [VStr "On-site"; VStr "Full-remote"].

Definition sample_filtered : DataFrame :=
  match filtered_df sample_enriched sample_selection with
  | Ok df => df
  | Raise _ => empty_table
  end.

(** *** Further sample tables and selections *)

(** A raw table whose second record has no company location. *)
Definition sample_no_location : DataFrame :=
  mkDF 2
    [ ("work_year", [VInt 2023; VInt 2022]);
      ("experience_level", [VStr "SE"; VStr "MI"]);
      ("employment_type", [VStr "FT"; VStr "CT"]);
      ("job_title", [VStr "Data Engineer"; VStr "Research Lead"]);
      ("salary_in_usd", [VInt 120000; VInt 80000]);
      ("remote_ratio", [VInt 50; VInt 100]);
      ("company_location", [VStr "US"; NaN]);
      ("company_size", [VStr "M"; VStr "L"]) ]%Z.

Definition sample_no_location_enriched : DataFrame :=
  match load_data sample_no_location with
  | Ok df => df
  | Raise _ => empty_table
  end.

(** A raw table whose second record has no job title. *)
Definition sample_no_title : DataFrame :=
  mkDF 2
    [ ("work_year", [VInt 2023; VInt 2022]);
      ("experience_level", [VStr "SE"; VStr "MI"]);
      ("employment_type", [VStr "FT"; VStr "CT"]);
      ("job_title", [VStr "Data Engineer"; NaN]);
      ("salary_in_usd", [VInt 120000; VInt 80000]);
      ("remote_ratio", [VInt 50; VInt 100]);
      ("company_location", [VStr "US"; VStr "DE"]);
      ("company_size", [VStr "M"; VStr "L"]) ]%Z.

Definition empty_selection : selection := mkSel [] [] [] [] [] [].

Definition sample_default : selection :=
  match default_selection sorted_ints sample_enriched with
  | Ok sel => sel
  | Raise _ => empty_selection
  end.

(** [sample_selection] with the year 2022 deselected. *)
Definition sample_narrow : selection :=
  mkSel [VInt 2023]
        [VStr "Senior-level"; VStr "Mid-level"]
        [VStr "Data Analyst"; VStr "Machine Learning Engineer"]
        [VStr "Americas"; VStr "Other"]
        [VStr "Medium"; VStr "Large"]
        [VStr "On-site"; VStr "Full-remote"].

(** [sample_selection] listed in another order, with values the sample
    does not hold. *)
Definition sample_selection_padded : selection :=
  mkSel [VInt 2023; VInt 2019; VInt 2022]
        [VStr "Mid-level"; VStr "Senior-level"; VStr "Executive-level"]
        [VStr "Machine Learning Engineer"; VStr "Data Analyst"]
        [VStr "Other"; VStr "Americas"; VStr "Americas"]
        [VStr "Large"; VStr "Medium"]
        [VStr "Full-remote"; VStr "On-site"].

Definition sample_narrowed : DataFrame :=
  match filtered_df sample_filtered sample_narrow with
  | Ok df => df
  | Raise _ => empty_table
  end.

(** The sample without its records. *)
Definition sample_no_rows : DataFrame :=
  mkDF 0 (map (fun cs => (fst cs, [])) (columns sample_enriched)).

(* ================================================================= *)
(** * Properties *)

(* ================================================================= *)
(** ** Strings *)

Section StringFacts.

Lemma startswith_app (n h : string) :
  Py.startswith n h = true <-> exists post, h = n ++ post.
Proof.
  revert h; induction n as [|a n IH]; intros h; simpl.
  - split; [intros _; now exists h | reflexivity].
  - destruct h as [|b h].
    + split; [discriminate | intros [post E]; discriminate].
    + rewrite andb_true_iff, Ascii.eqb_eq, IH. split.
      * intros [-> [post ->]]. now exists post.
      * intros [post E]. injection E as -> ->. split; [reflexivity | now exists post].
Qed.

(** [contains] is the substring test: it holds exactly when the needle
    occurs somewhere in the text. *)
Lemma contains_substring (n h : string) :
  Py.contains n h = true <-> Py.substring_of n h.
Proof.
  unfold Py.substring_of. induction h as [|b h IH]; simpl.
  - rewrite orb_false_r, startswith_app. split.
    + intros [post E]. exists EmptyString, post. exact E.
    + intros [[|x pre] [post E]]; [now exists post | discriminate].
  - rewrite orb_true_iff, startswith_app, IH. split.
    + intros [[post E] | [pre [post E]]].
      * exists EmptyString, post. exact E.
      * exists (String b pre), post. simpl. now rewrite E.
    + intros [[|x pre] [post E]].
      * left. now exists post.
      * right. injection E as _ E. now exists pre, post.
Qed.

Lemma in_list_In (c : string) (l : list string) :
  Py.in_list (VStr c) l = true <-> In c l.
Proof.
  simpl. rewrite existsb_exists. split.
  - intros [x [Hx E]]. apply String.eqb_eq in E. now subst.
  - intros H. exists c. split; [exact H | apply String.eqb_refl].
Qed.

Lemma in_list_not_In (c : string) (l : list string) :
  Py.in_list (VStr c) l = false <-> ~ In c l.
Proof.
  rewrite <- in_list_In. destruct (Py.in_list (VStr c) l); intuition congruence.
Qed.

End StringFacts.

(* ================================================================= *)
(** ** Job categories *)

(** C1: for every job title, [categorize_job] returns the label of the
    first rule, in the order data scientist, data engineer, data analyst,
    machine learning or ml, research or scientist, analytics, architect,
    manager or lead or director or head, one of whose keywords is a
    substring of the lower-cased title, and "Other" when no rule matches.
    In particular "Machine Learning Research Scientist" is a Machine
    Learning Engineer and "Senior Data Analyst" is a Data Analyst. *)
Theorem categorize_job_first_match :
  (forall title : string,
      categorize_job (VStr title) = Ok (job_category_spec title))
  /\ categorize_job (VStr "Machine Learning Research Scientist")
     = Ok "Machine Learning Engineer"
  /\ categorize_job (VStr "Senior Data Analyst") = Ok "Data Analyst".
Proof.
  split; [| split; reflexivity].
  intros title. unfold categorize_job, job_category_spec. f_equal.
  generalize (Py.lower title) as t. intros t.
  unfold categorize_lowered, first_match, job_rules, rule_matches. simpl.
  repeat match goal with
         | |- context [Py.contains ?k t] =>
             destruct (Py.contains k t); simpl; try reflexivity
         end.
Qed.

(** C10: a title whose lower-casing contains "ml" anywhere, also inside a
    longer word, and contains none of "data scientist", "data engineer",
    "data analyst", is a Machine Learning Engineer. *)
Theorem ml_rule_is_raw_substring (title : string) :
  Py.contains "ml" (Py.lower title) = true ->
  Py.contains "data scientist" (Py.lower title) = false ->
  Py.contains "data engineer" (Py.lower title) = false ->
  Py.contains "data analyst" (Py.lower title) = false ->
  categorize_job (VStr title) = Ok "Machine Learning Engineer".
Proof.
  intros Hml Hs He Ha. unfold categorize_job, categorize_lowered.
  rewrite Hs, He, Ha, Hml, orb_true_r. reflexivity.
Qed.

Lemma ml_rule_html_developer :
  Py.substring_of "ml" (Py.lower "Html Developer")
  /\ categorize_job (VStr "Html Developer") = Ok "Machine Learning Engineer".
Proof.
  split.
  - exists "ht", " developer". reflexivity.
  - apply (ml_rule_is_raw_substring "Html Developer"); reflexivity.
Defined.

(* ================================================================= *)
(** ** Remote work type *)

Section RemoteWorkType.

Open Scope Z_scope.

(** The bins [(-1, 0]], [(0, 50]], [(50, 100]] of the cut, and the
    missing value outside them. *)
Lemma remote_work_type_cases (r : Z) :
  remote_work_type r =
    if r <=? -1 then NaN
    else if r <=? 0 then VStr "On-site"
    else if r <=? 50 then VStr "Hybrid"
    else if r <=? 100 then VStr "Full-remote"
    else NaN.
Proof.
  unfold remote_work_type, Pd.cut_int, Pd.searchsorted_left, remote_bins.
  simpl filter.
  destruct (Z.ltb_spec (-1) r), (Z.ltb_spec 0 r), (Z.ltb_spec 50 r),
    (Z.ltb_spec 100 r); try lia;
    destruct (Z.leb_spec r (-1)), (Z.leb_spec r 0), (Z.leb_spec r 50),
    (Z.leb_spec r 100); try lia; reflexivity.
Qed.

(** C2: a remote ratio of 0 is On-site, one in (0, 50] is Hybrid, one in
    (50, 100] is Full-remote. *)
Theorem remote_work_type_buckets (r : Z) :
  (r = 0 -> remote_work_type r = VStr "On-site")
  /\ (0 < r <= 50 -> remote_work_type r = VStr "Hybrid")
  /\ (50 < r <= 100 -> remote_work_type r = VStr "Full-remote").
Proof.
  rewrite remote_work_type_cases.
  repeat split; intros H;
    destruct (Z.leb_spec r (-1)), (Z.leb_spec r 0), (Z.leb_spec r 50),
    (Z.leb_spec r 100); try lia; reflexivity.
Qed.

Lemma remote_work_type_buckets_at_edges :
  remote_work_type 0 = VStr "On-site"
  /\ remote_work_type 50 = VStr "Hybrid"
  /\ remote_work_type 100 = VStr "Full-remote".
Proof.
  split; [| split].
  - apply (remote_work_type_buckets 0). reflexivity.
  - apply (remote_work_type_buckets 50). lia.
  - apply (remote_work_type_buckets 100). lia.
Defined.

(** C4, as stated, fails: a remote ratio of -1 is at most 0, yet it lies
    below the first bin and gets the missing value, not On-site. *)
Lemma negative_ratio_not_on_site :
  -1 <= 0
  /\ remote_work_type (-1) = NaN
  /\ ~ (forall r : Z, r <= 0 -> remote_work_type r = VStr "On-site").
Proof.
  split; [lia |]. split; [reflexivity |].
  intros H. specialize (H (-1)).
  assert (E : remote_work_type (-1) = VStr "On-site") by (apply H; lia).
  discriminate E.
Qed.

(** C4, amended: the first bin is (-1, 0]; a remote ratio in it (the
    integer 0) is On-site, and every ratio of -1 or less, such as -1 and
    -5, gets the missing value. *)
Theorem first_bin_is_bounded_below (r : Z) :
  (-1 < r <= 0 -> remote_work_type r = VStr "On-site")
  /\ (r <= -1 -> remote_work_type r = NaN).
Proof.
  rewrite remote_work_type_cases.
  split; intros H;
    destruct (Z.leb_spec r (-1)), (Z.leb_spec r 0); try lia; reflexivity.
Qed.

Lemma first_bin_is_bounded_below_examples :
  remote_work_type 0 = VStr "On-site"
  /\ remote_work_type (-1) = NaN
  /\ remote_work_type (-5) = NaN.
Proof.
  split; [| split].
  - apply (first_bin_is_bounded_below 0). lia.
  - apply (first_bin_is_bounded_below (-1)). lia.
  - apply (first_bin_is_bounded_below (-5)). lia.
Defined.

End RemoteWorkType.

(* ================================================================= *)
(** ** Regions *)

Section Regions.

Ltac by_cases_on_set H :=
  simpl in H;
  repeat (destruct H as [H | H]; [subst; try reflexivity; try discriminate |]);
  try contradiction.

Ltac disjoint_sets :=
  let c := fresh "c" in
  let Ha := fresh "Ha" in
  let Hb := fresh "Hb" in
  intros c Ha Hb; simpl in Ha;
  repeat (destruct Ha as [Ha | Ha];
          [subst c; simpl in Hb; intuition discriminate |]);
  contradiction.

Lemma get_region_named (c label : string) (set : list string) :
  In (label, set) region_sets -> In c set -> get_region (VStr c) = label.
Proof.
  intros Hset Hc. simpl in Hset.
  repeat (destruct Hset as [Hset | Hset];
          [injection Hset as <- <-; by_cases_on_set Hc |]).
  contradiction.
Qed.

Lemma get_region_default (c : string) :
  (forall label set, In (label, set) region_sets -> ~ In c set) ->
  get_region (VStr c) = "Other".
Proof.
  intros H. unfold get_region.
  assert (Ham : Py.in_list (VStr c) americas = false)
    by (apply in_list_not_In, (H "Americas"); simpl; auto 8).
  assert (Heu : Py.in_list (VStr c) europe = false)
    by (apply in_list_not_In, (H "Europe"); simpl; auto 8).
  assert (Has : Py.in_list (VStr c) asia = false)
    by (apply in_list_not_In, (H "Asia"); simpl; auto 8).
  assert (Hoc : Py.in_list (VStr c) oceania = false)
    by (apply in_list_not_In, (H "Oceania"); simpl; auto 8).
  assert (Haf : Py.in_list (VStr c) africa = false)
    by (apply in_list_not_In, (H "Africa"); simpl; auto 8).
  now rewrite Ham, Heu, Has, Hoc, Haf.
Qed.

Lemma get_region_in_bucket (c : string) : in_bucket c (get_region (VStr c)).
Proof.
  unfold get_region.
  destruct (Py.in_list (VStr c) americas) eqn:Ham;
    [left; exists americas; split; [simpl; auto 8 | now apply in_list_In] |].
  destruct (Py.in_list (VStr c) europe) eqn:Heu;
    [left; exists europe; split; [simpl; auto 8 | now apply in_list_In] |].
  destruct (Py.in_list (VStr c) asia) eqn:Has;
    [left; exists asia; split; [simpl; auto 8 | now apply in_list_In] |].
  destruct (Py.in_list (VStr c) oceania) eqn:Hoc;
    [left; exists oceania; split; [simpl; auto 8 | now apply in_list_In] |].
  destruct (Py.in_list (VStr c) africa) eqn:Haf;
    [left; exists africa; split; [simpl; auto 8 | now apply in_list_In] |].
  right. split; [reflexivity |].
  intros l set Hset. apply in_list_not_In. simpl in Hset.
  repeat (destruct Hset as [Hset | Hset];
          [injection Hset as <- <-; assumption |]).
  contradiction.
Qed.

Lemma in_bucket_get_region (c label : string) :
  in_bucket c label -> get_region (VStr c) = label.
Proof.
  intros [[set [Hset Hc]] | [-> H]].
  - now apply get_region_named with set.
  - now apply get_region_default.
Qed.

(** C6: the region of a country code is the name of the hardcoded set
    that holds exactly this code, and "Other" when none of the five sets
    does; so "US" and "BR", and every code of the Americas set, are in
    "Americas", and "ZZ" is in "Other". *)
Theorem get_region_exact_lookup :
  (forall c label set,
      In (label, set) region_sets -> In c set -> get_region (VStr c) = label)
  /\ (forall c,
         (forall label set, In (label, set) region_sets -> ~ In c set) ->
         get_region (VStr c) = "Other")
  /\ (forall c, In c americas -> get_region (VStr c) = "Americas")
  /\ get_region (VStr "US") = "Americas"
  /\ get_region (VStr "BR") = "Americas"
  /\ get_region (VStr "ZZ") = "Other".
Proof.
  split; [exact get_region_named |].
  split; [exact get_region_default |].
  split; [| repeat split].
  intros c Hc. apply get_region_named with americas; [simpl; auto 8 | exact Hc].
Qed.

Lemma get_region_exact_lookup_examples :
  get_region (VStr "DE") = "Europe"
  /\ get_region (VStr "us") = "Other"
  /\ get_region (VStr "CA") = "Americas".
Proof.
  destruct get_region_exact_lookup as [Hnamed [Hother [Ham _]]].
  split; [| split].
  - apply (Hnamed "DE" "Europe" europe); simpl; auto.
  - apply (Hother "us"). intros label set Hset Hc. simpl in Hset.
    repeat (destruct Hset as [Hset | Hset];
            [injection Hset as <- <-; simpl in Hc; intuition discriminate |]).
    contradiction.
  - apply (Ham "CA"). simpl. auto.
Defined.

(** C8: the five country-code sets are pairwise disjoint; every code lies
    in exactly one bucket (one named set, or the default "Other"), and
    the label [get_region] gives a code is the name of that bucket. *)
Theorem region_sets_partition :
  ForallOrdPairs (fun a b => disjoint (snd a) (snd b)) region_sets
  /\ (forall c label, get_region (VStr c) = label <-> in_bucket c label)
  /\ (forall c, exists! label, in_bucket c label).
Proof.
  split; [| split].
  - unfold region_sets.
    repeat (apply FOP_cons; [repeat (apply Forall_cons; [simpl; disjoint_sets |]);
                             apply Forall_nil |]).
    apply FOP_nil.
  - intros c label. split.
    + intros <-. apply get_region_in_bucket.
    + apply in_bucket_get_region.
  - intros c. exists (get_region (VStr c)). split.
    + apply get_region_in_bucket.
    + intros label H. now apply in_bucket_get_region.
Qed.

Lemma region_sets_partition_examples :
  in_bucket "JP" "Asia" /\ get_region (VStr "ZZ") = "Other".
Proof.
  destruct region_sets_partition as [_ [Hlabel _]].
  split.
  - apply (Hlabel "JP" "Asia"). reflexivity.
  - apply (Hlabel "ZZ" "Other"). right. split; [reflexivity |].
    intros l set Hset Hc. simpl in Hset.
    repeat (destruct Hset as [Hset | Hset];
            [injection Hset as <- <-; simpl in Hc; intuition discriminate |]).
    contradiction.
Defined.

End Regions.

(* ================================================================= *)
(** ** Columns of a table *)

Section Columns.

Implicit Types (cols : list (string * Series)) (s : Series) (name : string).

Lemma lookup_assign cols name s other :
  Pd.lookup (Pd.assign cols name s) other =
    if String.eqb name other then Some s else Pd.lookup cols other.
Proof.
  induction cols as [|[c s'] t IH]; simpl.
  - destruct (String.eqb_spec name other); reflexivity.
  - destruct (String.eqb_spec c name) as [-> | Hne]; simpl.
    + destruct (String.eqb name other); reflexivity.
    + rewrite IH. destruct (String.eqb_spec c other) as [-> | Hne'].
      * destruct (String.eqb_spec name other); [congruence | reflexivity].
      * reflexivity.
Qed.

Lemma assign_keeps_names cols name s c :
  In c (map fst cols) -> In c (map fst (Pd.assign cols name s)).
Proof.
  induction cols as [|[c' s'] t IH]; simpl; [contradiction |].
  destruct (String.eqb c' name); simpl; intuition.
Qed.

Lemma assign_adds_name cols name s :
  In name (map fst (Pd.assign cols name s)).
Proof.
  induction cols as [|[c' s'] t IH]; simpl; [now left |].
  destruct (String.eqb_spec c' name); simpl; auto.
Qed.

Lemma assign_lengths cols name s n :
  forallb (fun cs => (length (snd cs) =? n)%nat) cols = true ->
  length s = n ->
  forallb (fun cs => (length (snd cs) =? n)%nat) (Pd.assign cols name s) = true.
Proof.
  intros Hc Hs. induction cols as [|[c' s'] t IH]; simpl in *.
  - now rewrite Hs, Nat.eqb_refl.
  - apply andb_true_iff in Hc as [H1 H2].
    destruct (String.eqb c' name); simpl.
    + now rewrite Hs, Nat.eqb_refl.
    + now rewrite H1, IH.
Qed.

Lemma lookup_length cols name s n :
  forallb (fun cs => (length (snd cs) =? n)%nat) cols = true ->
  Pd.lookup cols name = Some s -> length s = n.
Proof.
  induction cols as [|[c' s'] t IH]; simpl; [discriminate |].
  intros Hc. apply andb_true_iff in Hc as [H1 H2].
  destruct (String.eqb c' name).
  - intros [= <-]. now apply Nat.eqb_eq.
  - now apply IH.
Qed.

Lemma mapM_length {A B} (f : A -> result B) (l : list A) (l' : list B) :
  mapM f l = Ok l' -> length l' = length l.
Proof.
  revert l'. induction l as [|x t IH]; simpl; intros l'.
  - now intros [= <-].
  - destruct (f x) as [y|]; simpl; [| discriminate].
    destruct (mapM f t) as [r|]; simpl; [| discriminate].
    intros [= <-]. simpl. now rewrite (IH r).
Qed.

Lemma mapM_total {A B} (f : A -> result B) (p : A -> bool) (l : list A) :
  (forall x, p x = true -> exists y, f x = Ok y) ->
  forallb p l = true -> exists l', mapM f l = Ok l'.
Proof.
  intros Hf. induction l as [|x t IH]; simpl; intros Hl.
  - now exists [].
  - apply andb_true_iff in Hl as [Hx Ht].
    destruct (Hf x Hx) as [y ->]. destruct (IH Ht) as [r ->].
    now exists (y :: r).
Qed.

Lemma has_column_lookup df name p :
  has_column df name p = true ->
  exists s, Pd.lookup (columns df) name = Some s /\ forallb p s = true.
Proof.
  unfold has_column. destruct (Pd.lookup (columns df) name) as [s|];
    [now exists s | discriminate].
Qed.

Lemma dict_get_not_key (d : list (string * string)) (k : string) :
  ~ In k (map fst d) -> Pd.dict_get d k = None.
Proof.
  induction d as [|[k' v] t IH]; simpl; [reflexivity |].
  intros H. destruct (String.eqb_spec k' k); [tauto | apply IH; tauto].
Qed.

Lemma series_map_nth (d : list (string * string)) s i v :
  nth_error s i = Some v ->
  nth_error (Pd.series_map d s) i = Some (Pd.map_cell d v).
Proof.
  intros H. unfold Pd.series_map. now apply map_nth_error.
Qed.

End Columns.

(* ================================================================= *)
(** ** The enrichment transform *)

(** [load_data] returns exactly when the six columns it reads exist, the
    cut accepts the remote ratios and [categorize_job] accepts the titles;
    the result is then the raw table with the six columns assigned. *)
Lemma load_data_Ok (raw df : DataFrame) :
  load_data raw = Ok df <->
  exists e m z q c l r t j,
    Pd.lookup (columns raw) "experience_level" = Some e
    /\ Pd.lookup (columns raw) "employment_type" = Some m
    /\ Pd.lookup (columns raw) "company_size" = Some z
    /\ Pd.lookup (columns raw) "remote_ratio" = Some q
    /\ Pd.cut q remote_bins remote_labels = Ok c
    /\ Pd.lookup (columns raw) "company_location" = Some l
    /\ Pd.series_apply (fun v => Ok (VStr (get_region v))) l = Ok r
    /\ Pd.lookup (columns raw) "job_title" = Some t
    /\ Pd.series_apply (fun v => c <- categorize_job v ;; Ok (VStr c)) t = Ok j
    /\ df = mkDF (nrows raw) (enriched_columns (columns raw) e m z c r j).
Proof.
  unfold load_data, Pd.getitem, Pd.setitem, enriched_columns. simpl.
  split.
  - destruct (Pd.lookup (columns raw) "experience_level") as [e|] eqn:He; simpl; [| discriminate].
    rewrite !lookup_assign; simpl.
    destruct (Pd.lookup (columns raw) "employment_type") as [m|] eqn:Hm; simpl; [| discriminate].
    rewrite !lookup_assign; simpl.
    destruct (Pd.lookup (columns raw) "company_size") as [z|] eqn:Hz; simpl; [| discriminate].
    rewrite !lookup_assign; simpl.
    destruct (Pd.lookup (columns raw) "remote_ratio") as [q|] eqn:Hq; simpl; [| discriminate].
    destruct (Pd.cut q remote_bins remote_labels) as [c|] eqn:Hc; simpl; [| discriminate].
    rewrite !lookup_assign; simpl.
    destruct (Pd.lookup (columns raw) "company_location") as [l|] eqn:Hl; simpl; [| discriminate].
    destruct (Pd.series_apply _ l) as [r|] eqn:Hr; simpl; [| discriminate].
    rewrite !lookup_assign; simpl.
    destruct (Pd.lookup (columns raw) "job_title") as [t|] eqn:Ht; simpl; [| discriminate].
    destruct (Pd.series_apply _ t) as [j|] eqn:Hj; simpl; [| discriminate].
    intros [= <-]. exists e, m, z, q, c, l, r, t, j. repeat split; simpl; assumption || reflexivity.
  - intros (e & m & z & q & c & l & r & t & j & He & Hm & Hz & Hq & Hc & Hl & Hr & Ht & Hj & ->).
    rewrite He; simpl. rewrite !lookup_assign; simpl.
    rewrite Hm; simpl. rewrite !lookup_assign; simpl.
    rewrite Hz; simpl. rewrite !lookup_assign; simpl.
    rewrite Hq; simpl. rewrite Hc; simpl. rewrite !lookup_assign; simpl.
    rewrite Hl; simpl. rewrite Hr; simpl. rewrite !lookup_assign; simpl.
    rewrite Ht; simpl. rewrite Hj; simpl. reflexivity.
Qed.

Lemma load_data_total (raw : DataFrame) :
  raw_schema raw = true -> exists df, load_data raw = Ok df.
Proof.
  unfold raw_schema. rewrite !andb_true_iff.
  intros [[[[[He Hm] Hz] Hq] Hl] Ht].
  apply has_column_lookup in He as (e & He & _), Hm as (m & Hm & _),
      Hz as (z & Hz & _), Hq as (q & Hq & Hnum), Hl as (l & Hl & Hany),
      Ht as (t & Ht & Hstr).
  destruct (mapM_total (Pd.cut_cell remote_bins remote_labels) is_numeric q)
    as [c Hc]; [intros [s| x |]; simpl; try discriminate; eauto | exact Hnum |].
  destruct (mapM_total (fun v => Ok (VStr (get_region v))) any_cell l)
    as [r Hr]; [eauto | exact Hany |].
  destruct (mapM_total (fun v => c <- categorize_job v ;; Ok (VStr c)) is_str t)
    as [j Hj]; [intros [s| x |]; simpl; try discriminate; eauto | exact Hstr |].
  eexists. apply load_data_Ok.
  exists e, m, z, q, c, l, r, t, j. repeat split; eassumption || reflexivity.
Qed.

Lemma map_cell_not_key (d : list (string * string)) (v : value) :
  (forall k, v = VStr k -> ~ In k (map fst d)) -> Pd.map_cell d v = NaN.
Proof.
  intros H. destruct v as [k | x |]; simpl; try reflexivity.
  now rewrite dict_get_not_key by now apply H.
Qed.

(** C5: on a raw table with the columns of the input contract the
    enrichment returns a table with the same number of rows, in which every
    column name of the raw table is still present, as are the derived
    columns remote_work_type, region and job_category; every column of the
    result is as long as the index when every column of the raw table is. *)
Theorem load_data_preserves_table (raw : DataFrame) :
  raw_schema raw = true ->
  exists df,
    load_data raw = Ok df
    /\ nrows df = nrows raw
    /\ (forall c, In c (Pd.column_names raw) -> In c (Pd.column_names df))
    /\ In "remote_work_type" (Pd.column_names df)
    /\ In "region" (Pd.column_names df)
    /\ In "job_category" (Pd.column_names df)
    /\ (Pd.wf raw = true -> Pd.wf df = true).
Proof.
  intros Hs. destruct (load_data_total raw Hs) as [df Hdf]. exists df.
  split; [exact Hdf |].
  apply load_data_Ok in Hdf
    as (e & m & z & q & c & l & r & t & j
        & He & Hm & Hz & Hq & Hc & Hl & Hr & Ht & Hj & ->).
  unfold Pd.column_names, enriched_columns. simpl.
  split; [reflexivity |]. split; [| split; [| split; [| split]]].
  - intros x Hx. now repeat apply assign_keeps_names.
  - do 2 apply assign_keeps_names. apply assign_adds_name.
  - apply assign_keeps_names, assign_adds_name.
  - apply assign_adds_name.
  - unfold Pd.wf. simpl. intros Hwf.
    apply mapM_length in Hc, Hr, Hj.
    repeat apply assign_lengths; trivial; unfold Pd.series_map;
      rewrite ?length_map, ?Hc, ?Hr, ?Hj; eapply lookup_length; eassumption.
Qed.

Lemma load_data_preserves_sample :
  exists df,
    load_data sample_raw = Ok df
    /\ nrows df = 2
    /\ (forall c, In c (Pd.column_names sample_raw) -> In c (Pd.column_names df))
    /\ In "remote_work_type" (Pd.column_names df)
    /\ In "region" (Pd.column_names df)
    /\ In "job_category" (Pd.column_names df)
    /\ (Pd.wf sample_raw = true -> Pd.wf df = true).
Proof.
  apply (load_data_preserves_table sample_raw). reflexivity.
Defined.

(** C7: the enrichment raises no error on a table of the input contract,
    whatever the codes are, and a cell of experience_level, employment_type
    or company_size that is not a key of the column's lookup table is the
    missing value in the enriched table. *)
Theorem unmapped_codes_become_missing (raw : DataFrame) :
  raw_schema raw = true ->
  exists df,
    load_data raw = Ok df
    /\ forall col d s i v,
        In (col, d) recode_tables ->
        Pd.lookup (columns raw) col = Some s ->
        nth_error s i = Some v ->
        (forall k, v = VStr k -> ~ In k (map fst d)) ->
        exists s', Pd.lookup (columns df) col = Some s'
                   /\ nth_error s' i = Some NaN.
Proof.
  intros Hs. destruct (load_data_total raw Hs) as [df Hdf]. exists df.
  split; [exact Hdf |].
  apply load_data_Ok in Hdf
    as (e & m & z & q & c & l & r & t & j
        & He & Hm & Hz & Hq & Hc & Hl & Hr & Ht & Hj & ->).
  intros col d s i v Hin Hcol Hi Hv. simpl in Hin.
  unfold enriched_columns. simpl.
  destruct Hin as [[= <- <-] | [[= <- <-] | [[= <- <-] | []]]];
    rewrite !lookup_assign; simpl;
    (eexists; split; [reflexivity |]);
    rewrite <- (map_cell_not_key _ v Hv); apply series_map_nth; congruence.
Qed.

Lemma unmapped_code_in_sample :
  exists df,
    load_data sample_raw = Ok df
    /\ exists s', Pd.lookup (columns df) "experience_level" = Some s'
                  /\ nth_error s' 1 = Some NaN.
Proof.
  destruct (unmapped_codes_become_missing sample_raw eq_refl) as [df [Hdf H]].
  exists df. split; [exact Hdf |].
  apply (H "experience_level" exp_level_map [VStr "SE"; VStr "XX"] 1%nat (VStr "XX"));
    [simpl; auto | reflexivity | reflexivity |].
  intros k [= <-]. simpl. intuition discriminate.
Defined.

(* ================================================================= *)
(** ** Boolean masks *)

Section Masks.

Context {A B : Type}.

Lemma select_nil_r (m : list bool) : Pd.select m (@nil A) = [].
Proof. destruct m; reflexivity. Qed.

Lemma select_map (f : A -> B) (m : list bool) (l : list A) :
  Pd.select m (map f l) = map f (Pd.select m l).
Proof.
  revert l. induction m as [|b m IH]; intros [|x l]; simpl; try reflexivity.
  destruct b; simpl; now rewrite IH.
Qed.

Lemma select_filter (p : A -> bool) (l : list A) :
  Pd.select (map p l) l = filter p l.
Proof.
  induction l as [|x l IH]; simpl; [reflexivity |].
  destruct (p x); now rewrite IH.
Qed.

Lemma length_select (m : list bool) (l : list A) :
  length l = length m -> length (Pd.select m l) = Pd.count_true m.
Proof.
  unfold Pd.count_true. revert l.
  induction m as [|b m IH]; intros [|x l]; simpl; try discriminate; try reflexivity.
  intros [= H]. destruct b; simpl; now rewrite IH.
Qed.

Lemma select_all_true (l : list A) :
  Pd.select (repeat true (length l)) l = l.
Proof. induction l as [|x l IH]; simpl; [reflexivity | now rewrite IH]. Qed.

Lemma count_true_map (p : A -> bool) (l : list A) :
  Pd.count_true (map p l) = length (filter p l).
Proof.
  unfold Pd.count_true. induction l as [|x l IH]; simpl; [reflexivity |].
  destruct (p x); simpl; now rewrite IH.
Qed.

Lemma filter_none (p : A -> bool) (l : list A) :
  (forall x, In x l -> p x = false) -> filter p l = [].
Proof.
  induction l as [|x l IH]; simpl; intros H; [reflexivity |].
  rewrite (H x) by now left. apply IH. intros y Hy. apply H. now right.
Qed.

Lemma band_map (f g : A -> bool) (l : list A) :
  Pd.band (map f l) (map g l) = map (fun x => f x && g x) l.
Proof. induction l as [|x l IH]; simpl; [reflexivity | now rewrite IH]. Qed.

End Masks.

Lemma band_nil_r (a : list bool) : Pd.band a [] = [].
Proof. destruct a; reflexivity. Qed.

Lemma select_band (m a b : list bool) :
  Pd.select m (Pd.band a b) = Pd.band (Pd.select m a) (Pd.select m b).
Proof.
  revert a b. induction m as [|x m IH]; intros [|y a] [|z b]; simpl;
    try reflexivity.
  - destruct x; simpl; now rewrite ?band_nil_r.
  - destruct x; simpl; now rewrite IH.
Qed.

Lemma select_self (m : list bool) :
  Pd.select m m = repeat true (Pd.count_true m).
Proof.
  unfold Pd.count_true. induction m as [|[|] m IH]; simpl; [reflexivity | |];
    now rewrite IH.
Qed.

Lemma count_true_repeat (k : nat) : Pd.count_true (repeat true k) = k.
Proof.
  unfold Pd.count_true. induction k as [|k IH]; simpl; [reflexivity | now rewrite IH].
Qed.

Lemma lookup_select (m : list bool) (cols : list (string * Series)) (name : string) :
  Pd.lookup (map (fun cs => (fst cs, Pd.select m (snd cs))) cols) name
  = option_map (Pd.select m) (Pd.lookup cols name).
Proof.
  induction cols as [|[c s] t IH]; simpl; [reflexivity |].
  destruct (String.eqb c name); [reflexivity | exact IH].
Qed.

(* ================================================================= *)
(** ** Rows and columns *)

Section RowView.

Implicit Types (cols : list (string * Series)) (name : string).

Lemma length_rows_of n cols : length (rows_of n cols) = n.
Proof.
  revert cols. induction n as [|n IH]; intros cols; simpl;
    [reflexivity | now rewrite IH].
Qed.

Lemma row_get_head cols name :
  row_get (head_row cols) name = option_map (hd NaN) (Pd.lookup cols name).
Proof.
  induction cols as [|[c s] t IH]; simpl; [reflexivity |].
  destruct (String.eqb c name); [reflexivity | exact IH].
Qed.

Lemma lookup_tail cols name :
  Pd.lookup (tail_columns cols) name = option_map (@tl value) (Pd.lookup cols name).
Proof.
  induction cols as [|[c s] t IH]; simpl; [reflexivity |].
  destruct (String.eqb c name); [reflexivity | exact IH].
Qed.

(** Reading column [name] row by row gives the column. *)
Lemma column_of_rows n cols name s :
  Pd.lookup cols name = Some s -> length s = n ->
  map (fun r => row_get r name) (rows_of n cols) = map Some s.
Proof.
  revert cols s. induction n as [|n IH]; intros cols [|x s] Hs Hn;
    simpl in *; try discriminate; [reflexivity |].
  rewrite row_get_head, Hs. simpl. f_equal.
  apply IH; [| congruence]. now rewrite lookup_tail, Hs.
Qed.

Lemma isin_of_rows n cols name s allowed :
  Pd.lookup cols name = Some s -> length s = n ->
  Pd.isin s allowed = map (fun r => row_member r name allowed) (rows_of n cols).
Proof.
  intros Hs Hn. unfold Pd.isin, Pd.isin_cell, row_member.
  rewrite <- (map_map (fun r => row_get r name)
                (fun o => match o with
                          | Some v => existsb (value_eqb v) allowed
                          | None => false
                          end)).
  rewrite (column_of_rows n cols name s Hs Hn), map_map. reflexivity.
Qed.

Lemma head_row_select (m : list bool) cols :
  head_row (map (fun cs => (fst cs, Pd.select (true :: m) (snd cs))) cols)
  = head_row cols.
Proof.
  unfold head_row. rewrite map_map. apply map_ext.
  intros [c [|x s]]; reflexivity.
Qed.

Lemma tail_columns_select (m : list bool) cols :
  tail_columns (map (fun cs => (fst cs, Pd.select (true :: m) (snd cs))) cols)
  = map (fun cs => (fst cs, Pd.select m (snd cs))) (tail_columns cols).
Proof.
  unfold tail_columns. rewrite !map_map. apply map_ext.
  intros [c [|x s]]; simpl; [now rewrite select_nil_r | reflexivity].
Qed.

Lemma select_columns_skip (m : list bool) cols :
  map (fun cs => (fst cs, Pd.select (false :: m) (snd cs))) cols
  = map (fun cs => (fst cs, Pd.select m (snd cs))) (tail_columns cols).
Proof.
  unfold tail_columns. rewrite !map_map. apply map_ext.
  intros [c [|x s]]; simpl; [now rewrite select_nil_r | reflexivity].
Qed.

(** Selecting by a mask column by column selects the rows. *)
Lemma rows_of_select (m : list bool) cols :
  rows_of (Pd.count_true m)
    (map (fun cs => (fst cs, Pd.select m (snd cs))) cols)
  = Pd.select m (rows_of (length m) cols).
Proof.
  revert cols. induction m as [|[|] m IH]; intros cols; [reflexivity | |].
  - change (Pd.count_true (true :: m)) with (S (Pd.count_true m)).
    cbn [rows_of length]. rewrite head_row_select, tail_columns_select, IH.
    reflexivity.
  - change (Pd.count_true (false :: m)) with (Pd.count_true m).
    cbn [rows_of length]. rewrite select_columns_skip, IH. reflexivity.
Qed.

End RowView.

(* ================================================================= *)
(** ** The filter *)

Section Filter.

Variable sel : selection.

Lemma filter_mask_Ok (df : DataFrame) (m : list bool) :
  filter_mask df sel = Ok m <->
  exists y e j r c w,
    Pd.lookup (columns df) "work_year" = Some y
    /\ Pd.lookup (columns df) "experience_level" = Some e
    /\ Pd.lookup (columns df) "job_category" = Some j
    /\ Pd.lookup (columns df) "region" = Some r
    /\ Pd.lookup (columns df) "company_size" = Some c
    /\ Pd.lookup (columns df) "remote_work_type" = Some w
    /\ m = mask_of sel y e j r c w.
Proof.
  unfold filter_mask, Pd.getitem, mask_of. split.
  - destruct (Pd.lookup (columns df) "work_year") as [y|]; simpl; [| discriminate].
    destruct (Pd.lookup (columns df) "experience_level") as [e|]; simpl; [| discriminate].
    destruct (Pd.lookup (columns df) "job_category") as [j|]; simpl; [| discriminate].
    destruct (Pd.lookup (columns df) "region") as [r|]; simpl; [| discriminate].
    destruct (Pd.lookup (columns df) "company_size") as [c|]; simpl; [| discriminate].
    destruct (Pd.lookup (columns df) "remote_work_type") as [w|]; simpl; [| discriminate].
    intros [= <-]. exists y, e, j, r, c, w. repeat split; reflexivity.
  - intros (y & e & j & r & c & w & -> & -> & -> & -> & -> & -> & ->).
    reflexivity.
Qed.

Lemma filter_mask_total (df : DataFrame) :
  enriched_schema df = true -> exists m, filter_mask df sel = Ok m.
Proof.
  unfold enriched_schema. simpl. rewrite !andb_true_iff.
  intros (Hy & He & Hj & Hr & Hc & Hw & _).
  apply has_column_lookup in Hy as (y & Hy & _), He as (e & He & _),
      Hj as (j & Hj & _), Hr as (r & Hr & _), Hc as (c & Hc & _),
      Hw as (w & Hw & _).
  eexists. apply filter_mask_Ok. exists y, e, j, r, c, w.
  repeat split; eassumption || reflexivity.
Qed.

(** The mask holds at a position exactly when the row there passes. *)
Lemma filter_mask_rows (df : DataFrame) (m : list bool) :
  Pd.wf df = true -> filter_mask df sel = Ok m ->
  m = map (row_passes sel) (rows df).
Proof.
  intros Hwf Hm.
  apply filter_mask_Ok in Hm
    as (y & e & j & r & c & w & Hy & He & Hj & Hr & Hc & Hw & ->).
  unfold mask_of, rows.
  rewrite (isin_of_rows (nrows df) _ _ _ _ Hy (lookup_length _ _ _ _ Hwf Hy)).
  rewrite (isin_of_rows (nrows df) _ _ _ _ He (lookup_length _ _ _ _ Hwf He)).
  rewrite (isin_of_rows (nrows df) _ _ _ _ Hj (lookup_length _ _ _ _ Hwf Hj)).
  rewrite (isin_of_rows (nrows df) _ _ _ _ Hr (lookup_length _ _ _ _ Hwf Hr)).
  rewrite (isin_of_rows (nrows df) _ _ _ _ Hc (lookup_length _ _ _ _ Hwf Hc)).
  rewrite (isin_of_rows (nrows df) _ _ _ _ Hw (lookup_length _ _ _ _ Hwf Hw)).
  rewrite !band_map. reflexivity.
Qed.

Lemma wf_getitem_mask (df : DataFrame) (m : list bool) :
  Pd.wf df = true -> length m = nrows df -> Pd.wf (Pd.getitem_mask df m) = true.
Proof.
  unfold Pd.wf, Pd.getitem_mask. simpl. intros Hwf Hm.
  rewrite forallb_forall in *. intros cs' Hin.
  apply in_map_iff in Hin as [cs [<- Hin]]. simpl.
  apply Nat.eqb_eq, length_select.
  specialize (Hwf cs Hin). apply Nat.eqb_eq in Hwf. congruence.
Qed.

Lemma some_set_empty_fails (r : row) :
  some_set_empty sel = true -> row_passes sel r = false.
Proof.
  unfold some_set_empty, row_passes, row_member. simpl.
  destruct (selected_years sel), (selected_exp_levels sel),
    (selected_job_cats sel), (selected_regions sel),
    (selected_company_sizes sel), (selected_remote_types sel);
    simpl; try discriminate; intros _;
    repeat match goal with
           | |- context [row_get r ?c] => destruct (row_get r c); simpl
           | |- context [existsb ?f ?l] => destruct (existsb f l); simpl
           | |- context [value_eqb ?a ?b] => destruct (value_eqb a b); simpl
           end; reflexivity.
Qed.

Lemma length_filter_mask (df : DataFrame) (m : list bool) :
  Pd.wf df = true -> filter_mask df sel = Ok m -> length m = nrows df.
Proof.
  intros Hwf Hm. rewrite (filter_mask_rows df m Hwf Hm), length_map.
  apply length_rows_of.
Qed.

(** The rows of the selection are the rows that pass, in their order. *)
Lemma rows_getitem_mask (df : DataFrame) (m : list bool) :
  Pd.wf df = true -> filter_mask df sel = Ok m ->
  rows (Pd.getitem_mask df m) = filter (row_passes sel) (rows df).
Proof.
  intros Hwf Hm. unfold rows at 1. simpl.
  rewrite rows_of_select, (length_filter_mask df m Hwf Hm).
  fold (rows df). rewrite (filter_mask_rows df m Hwf Hm).
  apply select_filter.
Qed.

End Filter.

(** C3: on an enriched table and for every choice of the six allowed sets,
    the filter returns, without error, the table whose rows are exactly the
    rows of the input that are members of the allowed set in every one of
    the six dimensions, in the input's order and with all its columns; so
    it has at most as many rows as the input, and it is empty when no row
    matches and when one of the allowed sets is empty. *)
Theorem filtered_df_selects_rows (df : DataFrame) (sel : selection) :
  Pd.wf df = true ->
  enriched_schema df = true ->
  exists out,
    filtered_df df sel = Ok out
    /\ rows out = filter (row_passes sel) (rows df)
    /\ Pd.column_names out = Pd.column_names df
    /\ Pd.wf out = true
    /\ nrows out <= nrows df
    /\ ((forall r, In r (rows df) -> row_passes sel r = false) ->
        nrows out = 0 /\ rows out = [])
    /\ (some_set_empty sel = true -> nrows out = 0 /\ rows out = []).
Proof.
  intros Hwf Hs. destruct (filter_mask_total sel df Hs) as [m Hm].
  exists (Pd.getitem_mask df m).
  assert (Hrows := rows_getitem_mask sel df m Hwf Hm).
  assert (Hn : nrows (Pd.getitem_mask df m)
               = length (filter (row_passes sel) (rows df))).
  { simpl. rewrite (filter_mask_rows sel df m Hwf Hm). apply count_true_map. }
  assert (Hnone : (forall r, In r (rows df) -> row_passes sel r = false) ->
                  filter (row_passes sel) (rows df) = []).
  { apply filter_none. }
  split; [unfold filtered_df; now rewrite Hm |].
  split; [exact Hrows |].
  split; [unfold Pd.column_names, Pd.getitem_mask; simpl; now rewrite map_map |].
  split; [apply wf_getitem_mask; [exact Hwf | exact (length_filter_mask sel df m Hwf Hm)] |].
  split; [| split].
  - rewrite Hn. etransitivity; [apply filter_length_le |].
    unfold rows. now rewrite length_rows_of.
  - intros Hno. rewrite Hn, Hrows, (Hnone Hno). split; reflexivity.
  - intros He. rewrite Hn, Hrows, Hnone; [split; reflexivity |].
    intros r _. now apply some_set_empty_fails.
Qed.

Lemma filtered_df_selects_rows_sample :
  exists out,
    filtered_df sample_enriched sample_selection = Ok out
    /\ rows out = filter (row_passes sample_selection) (rows sample_enriched)
    /\ Pd.column_names out = Pd.column_names sample_enriched
    /\ Pd.wf out = true
    /\ nrows out <= nrows sample_enriched
    /\ ((forall r, In r (rows sample_enriched) ->
                   row_passes sample_selection r = false) ->
        nrows out = 0 /\ rows out = [])
    /\ (some_set_empty sample_selection = true ->
        nrows out = 0 /\ rows out = []).
Proof.
  apply (filtered_df_selects_rows sample_enriched sample_selection);
    reflexivity.
Defined.

(** C9: filtering the result of the filter again, with the same six
    allowed sets, returns that result unchanged. *)
Theorem filtered_df_idempotent (df out : DataFrame) (sel : selection) :
  Pd.wf df = true ->
  filtered_df df sel = Ok out ->
  filtered_df out sel = Ok out.
Proof.
  intros Hwf. unfold filtered_df at 1.
  destruct (filter_mask df sel) as [m|] eqn:Hm; simpl; [| discriminate].
  intros [= <-].
  assert (Hlen := length_filter_mask sel df m Hwf Hm).
  assert (Hm' : filter_mask (Pd.getitem_mask df m) sel
                = Ok (repeat true (Pd.count_true m))).
  { apply filter_mask_Ok in Hm
      as (y & e & j & r & c & w & Hy & He & Hj & Hr & Hc & Hw & ->).
    apply filter_mask_Ok.
    exists (Pd.select (mask_of sel y e j r c w) y),
      (Pd.select (mask_of sel y e j r c w) e),
      (Pd.select (mask_of sel y e j r c w) j),
      (Pd.select (mask_of sel y e j r c w) r),
      (Pd.select (mask_of sel y e j r c w) c),
      (Pd.select (mask_of sel y e j r c w) w).
    simpl. rewrite !lookup_select, Hy, He, Hj, Hr, Hc, Hw. simpl.
    repeat (split; [reflexivity |]).
    rewrite <- select_self. set (m := mask_of sel y e j r c w).
    unfold mask_of at 1, Pd.isin. rewrite <- !select_map, <- !select_band.
    reflexivity. }
  unfold filtered_df. rewrite Hm'. simpl. f_equal.
  unfold Pd.getitem_mask. simpl. rewrite count_true_repeat. f_equal.
  rewrite map_map. simpl. apply map_ext_in. intros [c s] Hin. simpl. f_equal.
  assert (Hs : length s = length m).
  { unfold Pd.wf in Hwf. rewrite forallb_forall in Hwf.
    specialize (Hwf (c, s) Hin). apply Nat.eqb_eq in Hwf. simpl in Hwf. congruence. }
  rewrite <- (length_select m s Hs). apply select_all_true.
Qed.

Lemma filtered_df_idempotent_sample :
  filtered_df sample_filtered sample_selection = Ok sample_filtered.
Proof.
  apply (filtered_df_idempotent sample_enriched sample_filtered sample_selection);
    reflexivity.
Defined.

(* ================================================================= *)
(** ** The enrichment transform, cell by cell *)

Lemma mapM_cases {A B : Type} (f : A -> result B) (p : A -> bool)
      (g : A -> B) (e : exn) (l : list A) :
  (forall x, p x = true -> f x = Ok (g x)) ->
  (forall x, p x = false -> f x = Raise e) ->
  mapM f l = if forallb p l then Ok (map g l) else Raise e.
Proof.
  intros Hok Herr. induction l as [|x t IH]; simpl; [reflexivity |].
  destruct (p x) eqn:Hp; simpl.
  - rewrite (Hok x Hp), IH. simpl. now destruct (forallb p t).
  - now rewrite (Herr x Hp).
Qed.

Lemma cut_cases (q : Series) :
  Pd.cut q remote_bins remote_labels =
    if forallb is_numeric q then Ok (map remote_cell q) else Raise TypeError.
Proof.
  apply mapM_cases; intros [s | r |]; simpl; reflexivity || discriminate.
Qed.

Lemma apply_region_cases (l : Series) :
  Pd.series_apply (fun v => Ok (VStr (get_region v))) l = Ok (map region_cell l).
Proof.
  unfold Pd.series_apply.
  rewrite (mapM_cases _ any_cell region_cell TypeError); try easy.
  replace (forallb any_cell l) with true; [reflexivity |].
  symmetry. apply forallb_forall. reflexivity.
Qed.

Lemma apply_job_cases (t : Series) :
  Pd.series_apply (fun v => c <- categorize_job v ;; Ok (VStr c)) t =
    if forallb is_str t then Ok (map job_cell t) else Raise AttributeError.
Proof.
  apply mapM_cases; intros [s | r |]; simpl; reflexivity || discriminate.
Qed.

(** [load_data] on a table that has the six columns. *)
Lemma load_data_run (raw : DataFrame) (e m z q l t : Series) :
  Pd.lookup (columns raw) "experience_level" = Some e ->
  Pd.lookup (columns raw) "employment_type" = Some m ->
  Pd.lookup (columns raw) "company_size" = Some z ->
  Pd.lookup (columns raw) "remote_ratio" = Some q ->
  Pd.lookup (columns raw) "company_location" = Some l ->
  Pd.lookup (columns raw) "job_title" = Some t ->
  load_data raw =
    if forallb is_numeric q then
      if forallb is_str t then
        Ok (mkDF (nrows raw)
              (enriched_columns (columns raw) e m z
                 (map remote_cell q) (map region_cell l) (map job_cell t)))
      else Raise AttributeError
    else Raise TypeError.
Proof.
  intros He Hm Hz Hq Hl Ht.
  unfold load_data, Pd.getitem, Pd.setitem, enriched_columns. simpl.
  rewrite He; simpl. rewrite !lookup_assign; simpl.
  rewrite Hm; simpl. rewrite !lookup_assign; simpl.
  rewrite Hz; simpl. rewrite !lookup_assign; simpl.
  rewrite Hq; simpl. rewrite cut_cases.
  destruct (forallb is_numeric q); simpl; [| reflexivity].
  rewrite !lookup_assign; simpl.
  rewrite Hl; simpl. rewrite apply_region_cases; simpl.
  rewrite !lookup_assign; simpl.
  rewrite Ht; simpl. rewrite apply_job_cases.
  destruct (forallb is_str t); reflexivity.
Qed.

(** What a successful [load_data] read and returned. *)
Lemma load_data_Ok_run (raw df : DataFrame) :
  load_data raw = Ok df ->
  exists e m z q l t,
    Pd.lookup (columns raw) "experience_level" = Some e
    /\ Pd.lookup (columns raw) "employment_type" = Some m
    /\ Pd.lookup (columns raw) "company_size" = Some z
    /\ Pd.lookup (columns raw) "remote_ratio" = Some q
    /\ Pd.lookup (columns raw) "company_location" = Some l
    /\ Pd.lookup (columns raw) "job_title" = Some t
    /\ forallb is_numeric q = true
    /\ forallb is_str t = true
    /\ df = mkDF (nrows raw)
              (enriched_columns (columns raw) e m z
                 (map remote_cell q) (map region_cell l) (map job_cell t)).
Proof.
  intros H. pose proof H as H0.
  apply load_data_Ok in H0
    as (e & m & z & q & c & l & r & t & j
        & He & Hm & Hz & Hq & _ & Hl & _ & Ht & _ & _).
  rewrite (load_data_run raw e m z q l t He Hm Hz Hq Hl Ht) in H.
  exists e, m, z, q, l, t.
  destruct (forallb is_numeric q); [| discriminate].
  destruct (forallb is_str t); [| discriminate].
  injection H as <-. repeat split; assumption.
Qed.

Lemma has_column_any (df : DataFrame) (name : string) (s : Series) :
  Pd.lookup (columns df) name = Some s -> has_column df name any_cell = true.
Proof.
  unfold has_column. intros ->. apply forallb_forall. reflexivity.
Qed.

(** X1: [load_data] returns a table exactly when the raw table has the six
    columns it reads, the remote ratios hold no string and the job titles
    are all strings. *)
Theorem load_data_returns_iff_schema (raw : DataFrame) :
  (exists df, load_data raw = Ok df) <-> raw_schema raw = true.
Proof.
  split; [| apply load_data_total].
  intros [df H].
  apply load_data_Ok_run in H
    as (e & m & z & q & l & t & He & Hm & Hz & Hq & Hl & Ht & Hnum & Hstr & _).
  unfold raw_schema.
  rewrite (has_column_any _ _ _ He), (has_column_any _ _ _ Hm),
    (has_column_any _ _ _ Hz), (has_column_any _ _ _ Hl).
  unfold has_column. now rewrite Hq, Ht, Hnum, Hstr.
Qed.

Lemma load_data_returns_on_sample : exists df, load_data sample_raw = Ok df.
Proof.
  apply (load_data_returns_iff_schema sample_raw). reflexivity.
Defined.

(** X2: every exception of [load_data] is explained by the raw table: a
    [KeyError] names one of the six columns read, which is absent; a
    [TypeError] comes with a string among the remote ratios; an
    [AttributeError] comes with a job title that is not a string. *)
Theorem load_data_exceptions_explained (raw : DataFrame) (e : exn) :
  load_data raw = Raise e ->
  (exists c, e = KeyError c /\ In c required_columns
             /\ Pd.lookup (columns raw) c = None)
  \/ (e = TypeError
      /\ exists q, Pd.lookup (columns raw) "remote_ratio" = Some q
                   /\ forallb is_numeric q = false)
  \/ (e = AttributeError
      /\ exists t, Pd.lookup (columns raw) "job_title" = Some t
                   /\ forallb is_str t = false).
Proof.
  unfold load_data, Pd.getitem, Pd.setitem. simpl.
  destruct (Pd.lookup (columns raw) "experience_level") as [x|] eqn:He; simpl;
    [| intros [= <-]; left; eexists; repeat split; [simpl; auto 8 | exact He]].
  rewrite !lookup_assign; simpl.
  destruct (Pd.lookup (columns raw) "employment_type") as [m|] eqn:Hm; simpl;
    [| intros [= <-]; left; eexists; repeat split; [simpl; auto 8 | exact Hm]].
  rewrite !lookup_assign; simpl.
  destruct (Pd.lookup (columns raw) "company_size") as [z|] eqn:Hz; simpl;
    [| intros [= <-]; left; eexists; repeat split; [simpl; auto 8 | exact Hz]].
  rewrite !lookup_assign; simpl.
  destruct (Pd.lookup (columns raw) "remote_ratio") as [q|] eqn:Hq; simpl;
    [| intros [= <-]; left; eexists; repeat split; [simpl; auto 8 | exact Hq]].
  rewrite cut_cases.
  destruct (forallb is_numeric q) eqn:Hnum; simpl;
    [| intros [= <-]; right; left; split; [reflexivity | now exists q]].
  rewrite !lookup_assign; simpl.
  destruct (Pd.lookup (columns raw) "company_location") as [l|] eqn:Hl; simpl;
    [| intros [= <-]; left; eexists; repeat split; [simpl; auto 8 | exact Hl]].
  rewrite apply_region_cases; simpl. rewrite !lookup_assign; simpl.
  destruct (Pd.lookup (columns raw) "job_title") as [t|] eqn:Ht; simpl;
    [| intros [= <-]; left; eexists; repeat split; [simpl; auto 8 | exact Ht]].
  rewrite apply_job_cases.
  destruct (forallb is_str t) eqn:Hstr; simpl; [discriminate |].
  intros [= <-]. right; right. split; [reflexivity | now exists t].
Qed.

Lemma load_data_exception_on_sample :
  (exists c, AttributeError = KeyError c /\ In c required_columns
             /\ Pd.lookup (columns sample_no_title) c = None)
  \/ (AttributeError = TypeError
      /\ exists q, Pd.lookup (columns sample_no_title) "remote_ratio" = Some q
                   /\ forallb is_numeric q = false)
  \/ (AttributeError = AttributeError
      /\ exists t, Pd.lookup (columns sample_no_title) "job_title" = Some t
                   /\ forallb is_str t = false).
Proof.
  apply (load_data_exceptions_explained sample_no_title AttributeError).
  reflexivity.
Defined.

(** X3: on a table that is otherwise fit for the enrichment, one job
    title that is not a string (a missing one) aborts the whole load with
    an [AttributeError]. *)
Theorem missing_title_aborts_load (raw : DataFrame) (t : Series) :
  has_column raw "experience_level" any_cell = true ->
  has_column raw "employment_type" any_cell = true ->
  has_column raw "company_size" any_cell = true ->
  has_column raw "remote_ratio" is_numeric = true ->
  has_column raw "company_location" any_cell = true ->
  Pd.lookup (columns raw) "job_title" = Some t ->
  forallb is_str t = false ->
  load_data raw = Raise AttributeError.
Proof.
  intros He Hm Hz Hq Hl Ht Hstr.
  apply has_column_lookup in He as (e & He & _), Hm as (m & Hm & _),
      Hz as (z & Hz & _), Hq as (q & Hq & Hnum), Hl as (l & Hl & _).
  rewrite (load_data_run raw e m z q l t He Hm Hz Hq Hl Ht).
  now rewrite Hnum, Hstr.
Qed.

Lemma missing_title_aborts_sample :
  load_data sample_no_title = Raise AttributeError.
Proof.
  apply (missing_title_aborts_load sample_no_title [VStr "Data Engineer"; NaN]);
    reflexivity.
Defined.

(** X4: the enrichment leaves every column other than the three recoded
    and the three derived ones as it was in the raw table. *)
Theorem load_data_leaves_other_columns (raw df : DataFrame) (c : string) :
  load_data raw = Ok df ->
  ~ In c (recoded_columns ++ derived_columns)%list ->
  Pd.lookup (columns df) c = Pd.lookup (columns raw) c.
Proof.
  intros H Hc.
  apply load_data_Ok_run in H
    as (e & m & z & q & l & t & _ & _ & _ & _ & _ & _ & _ & _ & ->).
  unfold enriched_columns. simpl. rewrite !lookup_assign.
  simpl in Hc.
  repeat match goal with
         | |- context [String.eqb ?a c] =>
             destruct (String.eqb_spec a c); [exfalso; apply Hc; auto 8 |]
         end.
  reflexivity.
Qed.

Lemma load_data_leaves_salary :
  Pd.lookup (columns sample_enriched) "salary_in_usd"
  = Pd.lookup (columns sample_raw) "salary_in_usd".
Proof.
  apply (load_data_leaves_other_columns sample_raw sample_enriched "salary_in_usd");
    [reflexivity |].
  simpl. intuition discriminate.
Defined.

Lemma assign_names (cols : list (string * Series)) (name : string) (s : Series) :
  map fst (Pd.assign cols name s) =
    (map fst cols ++ match Pd.lookup cols name with Some _ => [] | None => [name] end)%list.
Proof.
  induction cols as [|[c s'] t IH]; simpl; [reflexivity |].
  destruct (String.eqb_spec c name) as [-> | Hne]; simpl.
  - now rewrite app_nil_r.
  - now rewrite IH.
Qed.

(** X5: the columns of the enriched table are the columns of the raw
    table, in their order, followed by those of remote_work_type, region,
    job_category (in this order) that the raw table did not have. *)
Theorem load_data_column_order (raw df : DataFrame) :
  load_data raw = Ok df ->
  Pd.column_names df =
    (Pd.column_names raw ++ filter (absent raw) derived_columns)%list.
Proof.
  intros H.
  apply load_data_Ok_run in H
    as (e & m & z & q & l & t & He & Hm & Hz & _ & _ & _ & _ & _ & ->).
  unfold Pd.column_names, enriched_columns, absent. simpl.
  rewrite !assign_names, !lookup_assign. simpl.
  rewrite He, Hm, Hz. rewrite !app_nil_r.
  destruct (Pd.lookup (columns raw) "remote_work_type"),
    (Pd.lookup (columns raw) "region"),
    (Pd.lookup (columns raw) "job_category"); simpl;
    rewrite <- ?app_assoc, ?app_nil_r; reflexivity.
Qed.

Lemma load_data_column_order_sample :
  Pd.column_names sample_enriched =
    (Pd.column_names sample_raw
       ++ filter (absent sample_raw) derived_columns)%list.
Proof.
  apply (load_data_column_order sample_raw sample_enriched). reflexivity.
Defined.

(** X6: each assigned column of the enriched table is, cell by cell, a
    function of one column of the raw table: the recoded columns of their
    own raw cells, remote_work_type of remote_ratio, region of
    company_location, job_category of job_title. *)
Theorem load_data_cellwise (raw df : DataFrame) :
  load_data raw = Ok df ->
  exists e m z q l t,
    Pd.lookup (columns raw) "experience_level" = Some e
    /\ Pd.lookup (columns raw) "employment_type" = Some m
    /\ Pd.lookup (columns raw) "company_size" = Some z
    /\ Pd.lookup (columns raw) "remote_ratio" = Some q
    /\ Pd.lookup (columns raw) "company_location" = Some l
    /\ Pd.lookup (columns raw) "job_title" = Some t
    /\ Pd.lookup (columns df) "experience_level"
       = Some (map (Pd.map_cell exp_level_map) e)
    /\ Pd.lookup (columns df) "employment_type"
       = Some (map (Pd.map_cell emp_type_map) m)
    /\ Pd.lookup (columns df) "company_size"
       = Some (map (Pd.map_cell company_size_map) z)
    /\ Pd.lookup (columns df) "remote_work_type" = Some (map remote_cell q)
    /\ Pd.lookup (columns df) "region" = Some (map region_cell l)
    /\ Pd.lookup (columns df) "job_category" = Some (map job_cell t).
Proof.
  intros H.
  apply load_data_Ok_run in H
    as (e & m & z & q & l & t & He & Hm & Hz & Hq & Hl & Ht & _ & _ & ->).
  exists e, m, z, q, l, t.
  unfold enriched_columns. simpl. rewrite !lookup_assign. simpl.
  repeat split; assumption || reflexivity.
Qed.

Lemma load_data_cellwise_sample :
  exists e m z q l t,
    Pd.lookup (columns sample_raw) "experience_level" = Some e
    /\ Pd.lookup (columns sample_raw) "employment_type" = Some m
    /\ Pd.lookup (columns sample_raw) "company_size" = Some z
    /\ Pd.lookup (columns sample_raw) "remote_ratio" = Some q
    /\ Pd.lookup (columns sample_raw) "company_location" = Some l
    /\ Pd.lookup (columns sample_raw) "job_title" = Some t
    /\ Pd.lookup (columns sample_enriched) "experience_level"
       = Some (map (Pd.map_cell exp_level_map) e)
    /\ Pd.lookup (columns sample_enriched) "employment_type"
       = Some (map (Pd.map_cell emp_type_map) m)
    /\ Pd.lookup (columns sample_enriched) "company_size"
       = Some (map (Pd.map_cell company_size_map) z)
    /\ Pd.lookup (columns sample_enriched) "remote_work_type"
       = Some (map remote_cell q)
    /\ Pd.lookup (columns sample_enriched) "region" = Some (map region_cell l)
    /\ Pd.lookup (columns sample_enriched) "job_category"
       = Some (map job_cell t).
Proof.
  apply (load_data_cellwise sample_raw sample_enriched). reflexivity.
Defined.

(* ================================================================= *)
(** ** Ranges of the derived cells *)

Lemma region_cell_label (v : value) : is_label region_labels (region_cell v) = true.
Proof.
  unfold region_cell, get_region.
  destruct (Py.in_list v americas); [reflexivity |].
  destruct (Py.in_list v europe); [reflexivity |].
  destruct (Py.in_list v asia); [reflexivity |].
  destruct (Py.in_list v oceania); [reflexivity |].
  destruct (Py.in_list v africa); reflexivity.
Qed.

Lemma categorize_lowered_label (t : string) :
  existsb (String.eqb (categorize_lowered t)) job_labels = true.
Proof.
  unfold categorize_lowered.
  repeat match goal with
         | |- context [Py.contains ?k t] =>
             destruct (Py.contains k t); simpl; try reflexivity
         end.
Qed.

Lemma job_cell_label (v : value) :
  is_str v = true -> is_label job_labels (job_cell v) = true.
Proof.
  destruct v as [t | z |]; simpl; try discriminate. intros _.
  apply categorize_lowered_label.
Qed.

Lemma remote_cell_label (v : value) :
  label_or_missing remote_labels (remote_cell v) = true.
Proof.
  destruct v as [t | r |]; simpl; try reflexivity.
  rewrite remote_work_type_cases.
  destruct (r <=? -1)%Z, (r <=? 0)%Z, (r <=? 50)%Z, (r <=? 100)%Z; reflexivity.
Qed.

Lemma dict_get_value (d : list (string * string)) (k x : string) :
  Pd.dict_get d k = Some x -> In x (map snd d).
Proof.
  induction d as [|[k' v] t IH]; simpl; [discriminate |].
  destruct (String.eqb k' k); [intros [= ->]; now left | auto].
Qed.

Lemma map_cell_label (d : list (string * string)) (v : value) :
  label_or_missing (map snd d) (Pd.map_cell d v) = true.
Proof.
  destruct v as [k | z |]; simpl; try reflexivity.
  destruct (Pd.dict_get d k) as [x|] eqn:Hx; simpl; [| reflexivity].
  apply existsb_exists. exists x. split; [| apply String.eqb_refl].
  now apply dict_get_value with k.
Qed.

Lemma forallb_map_all {A B : Type} (p : B -> bool) (f : A -> B) (l : list A) :
  (forall x, In x l -> p (f x) = true) -> forallb p (map f l) = true.
Proof.
  intros H. apply forallb_forall. intros y Hy.
  apply in_map_iff in Hy as [x [<- Hx]]. now apply H.
Qed.

(** X7: in an enriched table the three recoded columns and
    remote_work_type hold only their labels or the missing value, and
    region and job_category hold only their labels, never a missing
    value. *)
Theorem enriched_columns_hold_labels (raw df : DataFrame) :
  load_data raw = Ok df ->
  has_column df "experience_level"
    (label_or_missing ["Entry-level"; "Mid-level"; "Senior-level"; "Executive-level"]) = true
  /\ has_column df "employment_type"
       (label_or_missing ["Full-time"; "Part-time"; "Contract"; "Freelance"]) = true
  /\ has_column df "company_size"
       (label_or_missing ["Small"; "Medium"; "Large"]) = true
  /\ has_column df "remote_work_type"
       (label_or_missing ["On-site"; "Hybrid"; "Full-remote"]) = true
  /\ has_column df "region" (is_label region_labels) = true
  /\ has_column df "job_category" (is_label job_labels) = true.
Proof.
  intros H.
  apply load_data_Ok_run in H
    as (e & m & z & q & l & t & _ & _ & _ & _ & _ & _ & _ & Hstr & ->).
  unfold has_column, enriched_columns. simpl. rewrite !lookup_assign. simpl.
  rewrite forallb_forall in Hstr.
  repeat split; apply forallb_map_all; intros v Hv.
  - apply (map_cell_label exp_level_map).
  - apply (map_cell_label emp_type_map).
  - apply (map_cell_label company_size_map).
  - apply remote_cell_label.
  - apply region_cell_label.
  - apply job_cell_label. now apply Hstr.
Qed.

Lemma enriched_sample_holds_labels :
  has_column sample_enriched "region" (is_label region_labels) = true
  /\ has_column sample_enriched "job_category" (is_label job_labels) = true.
Proof.
  destruct (enriched_columns_hold_labels sample_raw sample_enriched eq_refl)
    as (_ & _ & _ & _ & Hr & Hj).
  split; assumption.
Defined.

Section RemoteRange.

Open Scope Z_scope.

(** X8: the remote work type is missing exactly for the remote ratios of
    -1 or less and for those above 100. *)
Theorem remote_work_type_missing_iff (r : Z) :
  remote_work_type r = NaN <-> r <= -1 \/ 100 < r.
Proof.
  rewrite remote_work_type_cases.
  destruct (Z.leb_spec r (-1)), (Z.leb_spec r 0), (Z.leb_spec r 50),
    (Z.leb_spec r 100); split; intros Hr; try lia; try discriminate; reflexivity.
Qed.

Lemma remote_work_type_missing_examples :
  remote_work_type 101 = NaN /\ remote_work_type (-1) = NaN
  /\ remote_work_type 100 <> NaN.
Proof.
  split; [| split].
  - apply (remote_work_type_missing_iff 101). lia.
  - apply (remote_work_type_missing_iff (-1)). lia.
  - intros H. apply (remote_work_type_missing_iff 100) in H. lia.
Defined.

End RemoteRange.

(** X9: a record whose company location is not a string (a missing one)
    does not fail the load and gets the region "Other", not a missing
    region. *)
Theorem missing_location_is_other (raw df : DataFrame) (l : Series) (i : nat) (v : value) :
  load_data raw = Ok df ->
  Pd.lookup (columns raw) "company_location" = Some l ->
  nth_error l i = Some v ->
  is_str v = false ->
  exists r, Pd.lookup (columns df) "region" = Some r
            /\ nth_error r i = Some (VStr "Other").
Proof.
  intros H Hl Hi Hv.
  apply load_data_Ok_run in H
    as (e & m & z & q & l' & t & _ & _ & _ & _ & Hl' & _ & _ & _ & ->).
  rewrite Hl in Hl'. injection Hl' as <-.
  exists (map region_cell l). split.
  - unfold enriched_columns. simpl. rewrite !lookup_assign. reflexivity.
  - rewrite (map_nth_error region_cell i l Hi). f_equal.
    destruct v; [discriminate | reflexivity | reflexivity].
Qed.

Lemma missing_location_in_sample :
  exists r, Pd.lookup (columns sample_no_location_enriched) "region" = Some r
            /\ nth_error r 1 = Some (VStr "Other").
Proof.
  apply (missing_location_is_other sample_no_location
           sample_no_location_enriched [VStr "US"; NaN] 1%nat NaN);
    reflexivity.
Defined.

(* ================================================================= *)
(** ** Enriching twice *)

Lemma map_cell_twice (d : list (string * string)) (v : value) :
  forallb (fun x => match Pd.dict_get d x with Some _ => false | None => true end)
          (map snd d) = true ->
  Pd.map_cell d (Pd.map_cell d v) = NaN.
Proof.
  intros Hd. rewrite forallb_forall in Hd.
  destruct v as [k | z |]; simpl; try reflexivity.
  destruct (Pd.dict_get d k) as [x|] eqn:Hx; simpl; [| reflexivity].
  specialize (Hd x (dict_get_value d k x Hx)).
  destruct (Pd.dict_get d x); [discriminate | reflexivity].
Qed.

Lemma series_map_twice (d : list (string * string)) (s : Series) :
  forallb (fun x => match Pd.dict_get d x with Some _ => false | None => true end)
          (map snd d) = true ->
  forallb is_missing (Pd.series_map d (Pd.series_map d s)) = true.
Proof.
  intros Hd. unfold Pd.series_map. rewrite map_map.
  apply forallb_map_all. intros v _. now rewrite map_cell_twice.
Qed.

(** X10: the enrichment is not idempotent: applied to its own result it
    returns without error a table of the same size whose three recoded
    columns hold only missing values, and whose other columns are those of
    its argument. *)
Theorem enriching_twice_blanks_recoded (raw df : DataFrame) :
  load_data raw = Ok df ->
  exists df2,
    load_data df = Ok df2
    /\ nrows df2 = nrows df
    /\ (forall c, In c recoded_columns -> has_column df2 c is_missing = true)
    /\ (forall c, ~ In c recoded_columns ->
                  Pd.lookup (columns df2) c = Pd.lookup (columns df) c).
Proof.
  intros H.
  apply load_data_Ok_run in H
    as (e & m & z & q & l & t & He & Hm & Hz & Hq & Hl & Ht & Hnum & Hstr & ->).
  eexists. split.
  - rewrite (load_data_run _
               (Pd.series_map exp_level_map e) (Pd.series_map emp_type_map m)
               (Pd.series_map company_size_map z) q l t);
      try (unfold enriched_columns; simpl; rewrite !lookup_assign; simpl;
           assumption || reflexivity).
    rewrite Hnum, Hstr. reflexivity.
  - simpl. split; [reflexivity |]. split.
    + intros c Hc. unfold has_column, enriched_columns. simpl in *.
      destruct Hc as [<- | [<- | [<- | []]]];
        rewrite !lookup_assign; simpl; now apply series_map_twice.
    + intros c Hc. unfold enriched_columns. rewrite !lookup_assign.
      simpl in Hc.
      destruct (String.eqb_spec "job_category" c); [reflexivity |].
      destruct (String.eqb_spec "region" c); [reflexivity |].
      destruct (String.eqb_spec "remote_work_type" c); [reflexivity |].
      destruct (String.eqb_spec "company_size" c); [exfalso; apply Hc; auto |].
      destruct (String.eqb_spec "employment_type" c); [exfalso; apply Hc; auto |].
      destruct (String.eqb_spec "experience_level" c); [exfalso; apply Hc; auto |].
      reflexivity.
Qed.

Lemma enriching_sample_twice :
  exists df2,
    load_data sample_enriched = Ok df2
    /\ nrows df2 = nrows sample_enriched
    /\ (forall c, In c recoded_columns -> has_column df2 c is_missing = true)
    /\ (forall c, ~ In c recoded_columns ->
                  Pd.lookup (columns df2) c = Pd.lookup (columns sample_enriched) c).
Proof.
  apply (enriching_twice_blanks_recoded sample_raw sample_enriched). reflexivity.
Defined.

(* ================================================================= *)
(** ** Letter case *)

Lemma lower_ascii_idempotent (c : ascii) :
  Py.lower_ascii (Py.lower_ascii c) = Py.lower_ascii c.
Proof.
  destruct c as [[|] [|] [|] [|] [|] [|] [|] [|]]; reflexivity.
Qed.

Lemma lower_idempotent (s : string) : Py.lower (Py.lower s) = Py.lower s.
Proof.
  induction s as [|c s IH]; simpl; [reflexivity |].
  now rewrite lower_ascii_idempotent, IH.
Qed.

(** X11: the job category does not depend on letter case: two titles
    with the same lower-casing get the same category, and so do a title
    and its lower-casing. *)
Theorem categorize_job_ignores_case (t1 t2 : string) :
  Py.lower t1 = Py.lower t2 ->
  categorize_job (VStr t1) = categorize_job (VStr t2)
  /\ categorize_job (VStr (Py.lower t1)) = categorize_job (VStr t1).
Proof.
  intros H. unfold categorize_job. rewrite lower_idempotent, H. split; reflexivity.
Qed.

Lemma categorize_job_ignores_case_example :
  categorize_job (VStr "DATA ENGINEER") = categorize_job (VStr "Data Engineer")
  /\ categorize_job (VStr (Py.lower "DATA ENGINEER"))
     = categorize_job (VStr "DATA ENGINEER").
Proof.
  apply (categorize_job_ignores_case "DATA ENGINEER" "Data Engineer"). reflexivity.
Defined.

(* ================================================================= *)
(** ** Sorting integers *)

Lemma insert_int_In (x y : Z) (l : list Z) :
  In y (insert_int x l) <-> y = x \/ In y l.
Proof.
  induction l as [|z t IH]; simpl; [intuition |].
  destruct (x <=? z)%Z; simpl; [intuition |]. rewrite IH. intuition.
Qed.

Lemma sort_ints_In (y : Z) (l : list Z) :
  In y (fold_right insert_int [] l) <-> In y l.
Proof.
  induction l as [|x t IH]; simpl; [tauto |].
  rewrite insert_int_In, IH. intuition.
Qed.

Lemma as_ints_map (l : list value) (zs : list Z) :
  as_ints l = Some zs -> l = map VInt zs.
Proof.
  revert zs. induction l as [|[s | z |] t IH]; simpl; intros zs; try discriminate.
  - now intros [= <-].
  - destruct (as_ints t) as [zs'|]; simpl; [| discriminate].
    intros [= <-]. simpl. now rewrite (IH zs').
Qed.

Lemma sorted_ints_keeps_members (l l' : list value) :
  sorted_ints l = Ok l' -> forall v, In v l -> In v l'.
Proof.
  unfold sorted_ints. destruct (as_ints l) as [zs|] eqn:Hz; [| discriminate].
  intros [= <-] v Hv. rewrite (as_ints_map l zs Hz) in Hv.
  apply in_map_iff in Hv as [z [<- Hz']]. apply in_map, sort_ints_In, Hz'.
Qed.

(* ================================================================= *)
(** ** Membership and distinct values *)

Lemma value_eqb_eq (a b : value) : value_eqb a b = true <-> a = b.
Proof.
  destruct a as [s | x |], b as [t | y |]; simpl;
    try (split; [discriminate | intros [=]]); try tauto.
  - rewrite String.eqb_eq. split; [now intros -> | now intros [= ->]].
  - rewrite Z.eqb_eq. split; [now intros -> | now intros [= ->]].
Qed.

Lemma member_In (v : value) (l : list value) : member v l = true <-> In v l.
Proof.
  unfold member. rewrite existsb_exists. split.
  - intros [x [Hx E]]. apply value_eqb_eq in E. now subst.
  - intros H. exists v. split; [exact H | now apply value_eqb_eq].
Qed.

Lemma unique_from_spec (seen : list value) (s : Series) (v : value) :
  In v (Pd.unique_from seen s) <-> In v s /\ ~ In v seen.
Proof.
  revert seen. induction s as [|x t IH]; intros seen; simpl; [tauto |].
  destruct (existsb (value_eqb x) seen) eqn:Hx.
  - apply (member_In x seen) in Hx. rewrite IH.
    split; [tauto |]. intros [[-> | H] Hn]; tauto.
  - assert (Hn : ~ In x seen).
    { intros H. apply (member_In x seen) in H. unfold member in H. congruence. }
    simpl. rewrite IH. simpl.
    destruct (value_eqb x v) eqn:E.
    + apply value_eqb_eq in E. subst. tauto.
    + assert (x <> v) by (intros Heq; apply value_eqb_eq in Heq; congruence).
      tauto.
Qed.

Lemma unique_from_NoDup (seen : list value) (s : Series) :
  NoDup (Pd.unique_from seen s).
Proof.
  revert seen. induction s as [|x t IH]; intros seen; simpl; [constructor |].
  destruct (existsb (value_eqb x) seen); [apply IH |].
  constructor; [| apply IH].
  rewrite unique_from_spec. simpl. tauto.
Qed.

(** X12: the options of a sidebar widget, the distinct values of its
    column, list every cell value of the column, and only those, each
    once. *)
Theorem unique_lists_each_value_once (s : Series) :
  NoDup (Pd.unique s) /\ (forall v, In v (Pd.unique s) <-> In v s).
Proof.
  split; [apply unique_from_NoDup |].
  intros v. unfold Pd.unique. rewrite unique_from_spec. simpl. tauto.
Qed.

Lemma unique_sample_regions :
  NoDup (Pd.unique [VStr "Americas"; NaN; VStr "Americas"; NaN])
  /\ In NaN (Pd.unique [VStr "Americas"; NaN; VStr "Americas"; NaN]).
Proof.
  destruct (unique_lists_each_value_once [VStr "Americas"; NaN; VStr "Americas"; NaN])
    as [Hnodup Hin].
  split; [exact Hnodup |]. apply Hin. simpl. auto.
Defined.

Lemma isin_all_true (s : Series) (l : list value) :
  (forall v, In v s -> member v l = true) ->
  Pd.isin s l = repeat true (length s).
Proof.
  intros H. induction s as [|x t IH]; simpl; [reflexivity |].
  unfold Pd.isin_cell. fold (member x l). rewrite (H x) by now left.
  f_equal. apply IH. intros v Hv. apply H. now right.
Qed.

Lemma isin_unique (s : Series) : Pd.isin s (Pd.unique s) = repeat true (length s).
Proof.
  apply isin_all_true. intros v Hv. apply member_In.
  unfold Pd.unique. rewrite unique_from_spec. simpl. tauto.
Qed.

Lemma band_repeat_true (n : nat) :
  Pd.band (repeat true n) (repeat true n) = repeat true n.
Proof. induction n as [|n IH]; simpl; [reflexivity | now rewrite IH]. Qed.

Lemma getitem_mask_all_true (df : DataFrame) :
  Pd.wf df = true -> Pd.getitem_mask df (repeat true (nrows df)) = df.
Proof.
  intros Hwf. destruct df as [n cols]. unfold Pd.getitem_mask, Pd.wf in *.
  simpl in *. rewrite count_true_repeat. f_equal.
  rewrite forallb_forall in Hwf.
  rewrite <- (map_id cols) at 2. apply map_ext_in. intros [c s] Hin. simpl.
  specialize (Hwf (c, s) Hin). apply Nat.eqb_eq in Hwf. simpl in Hwf.
  now rewrite <- Hwf, select_all_true.
Qed.

(** X13: with the default selection of the sidebar (nothing deselected)
    the filter returns the whole table unchanged; of [sorted] this needs
    only that it drops no value. *)
Theorem default_selection_keeps_every_row
        (py_sorted : list value -> result (list value))
        (df : DataFrame) (sel : selection) :
  (forall l l', py_sorted l = Ok l' -> forall v, In v l -> In v l') ->
  Pd.wf df = true ->
  default_selection py_sorted df = Ok sel ->
  filtered_df df sel = Ok df.
Proof.
  intros Hsort Hwf. unfold default_selection, Pd.getitem.
  destruct (Pd.lookup (columns df) "work_year") as [y|] eqn:Hy; simpl; [| discriminate].
  destruct (py_sorted (Pd.unique y)) as [years|] eqn:Hyears; simpl; [| discriminate].
  destruct (Pd.lookup (columns df) "experience_level") as [e|] eqn:He; simpl; [| discriminate].
  destruct (Pd.lookup (columns df) "job_category") as [j|] eqn:Hj; simpl; [| discriminate].
  destruct (Pd.lookup (columns df) "region") as [r|] eqn:Hr; simpl; [| discriminate].
  destruct (Pd.lookup (columns df) "company_size") as [c|] eqn:Hc; simpl; [| discriminate].
  destruct (Pd.lookup (columns df) "remote_work_type") as [w|] eqn:Hw; simpl; [| discriminate].
  intros [= <-].
  unfold filtered_df, filter_mask, Pd.getitem. rewrite Hy, He, Hj, Hr, Hc, Hw. simpl.
  rewrite !isin_unique.
  rewrite (isin_all_true y years).
  2:{ intros v Hv. apply member_In, (Hsort _ _ Hyears).
      unfold Pd.unique. rewrite unique_from_spec. simpl. tauto. }
  rewrite (lookup_length _ _ _ _ Hwf Hy), (lookup_length _ _ _ _ Hwf He),
    (lookup_length _ _ _ _ Hwf Hj), (lookup_length _ _ _ _ Hwf Hr),
    (lookup_length _ _ _ _ Hwf Hc), (lookup_length _ _ _ _ Hwf Hw).
  rewrite !band_repeat_true. now rewrite getitem_mask_all_true.
Qed.

Lemma default_selection_keeps_sample :
  filtered_df sample_enriched sample_default = Ok sample_enriched.
Proof.
  apply (default_selection_keeps_every_row sorted_ints sample_enriched sample_default);
    [exact sorted_ints_keeps_members | reflexivity | reflexivity].
Defined.

(* ================================================================= *)
(** ** Errors of the filter *)

(** X14: the filter returns a table exactly when the table has all six
    filter columns; otherwise it raises a [KeyError] naming the first
    absent one in the order work_year, experience_level, job_category,
    region, company_size, remote_work_type, whatever the selection. *)
Theorem filtered_df_key_error (df : DataFrame) (sel : selection) :
  match find (absent df) filter_dimensions with
  | Some c => filtered_df df sel = Raise (KeyError c)
  | None => exists out, filtered_df df sel = Ok out
  end.
Proof.
  unfold filtered_df, filter_mask, Pd.getitem, filter_dimensions, absent. simpl.
  destruct (Pd.lookup (columns df) "work_year"); simpl; [| reflexivity].
  destruct (Pd.lookup (columns df) "experience_level"); simpl; [| reflexivity].
  destruct (Pd.lookup (columns df) "job_category"); simpl; [| reflexivity].
  destruct (Pd.lookup (columns df) "region"); simpl; [| reflexivity].
  destruct (Pd.lookup (columns df) "company_size"); simpl; [| reflexivity].
  destruct (Pd.lookup (columns df) "remote_work_type"); simpl; [| reflexivity].
  eexists. reflexivity.
Qed.

(* ================================================================= *)
(** ** Allowed sets as sets *)

Lemma isin_agree (df : DataFrame) (name : string) (s : Series) (a b : list value) :
  agree_on df name a b -> Pd.lookup (columns df) name = Some s ->
  Pd.isin s a = Pd.isin s b.
Proof.
  intros H Hs. unfold Pd.isin. apply map_ext_in. intros v Hv.
  exact (H s v Hs Hv).
Qed.

(** X15: the filter uses the allowed sets as sets of the column's
    values: two selections that allow the same cells of each filter column
    give the same result, so the order of an allowed list, repetitions in
    it, and values the column does not hold have no effect. *)
Theorem filtered_df_depends_on_members (df : DataFrame) (s1 s2 : selection) :
  sel_agree df s1 s2 -> filtered_df df s1 = filtered_df df s2.
Proof.
  intros (Hy & He & Hj & Hr & Hc & Hw).
  unfold filtered_df, filter_mask, Pd.getitem.
  destruct (Pd.lookup (columns df) "work_year") as [y|] eqn:Ey; simpl; [| reflexivity].
  destruct (Pd.lookup (columns df) "experience_level") as [e|] eqn:Ee; simpl; [| reflexivity].
  destruct (Pd.lookup (columns df) "job_category") as [j|] eqn:Ej; simpl; [| reflexivity].
  destruct (Pd.lookup (columns df) "region") as [r|] eqn:Er; simpl; [| reflexivity].
  destruct (Pd.lookup (columns df) "company_size") as [c|] eqn:Ec; simpl; [| reflexivity].
  destruct (Pd.lookup (columns df) "remote_work_type") as [w|] eqn:Ew; simpl; [| reflexivity].
  now rewrite (isin_agree df _ y _ _ Hy Ey), (isin_agree df _ e _ _ He Ee),
    (isin_agree df _ j _ _ Hj Ej), (isin_agree df _ r _ _ Hr Er),
    (isin_agree df _ c _ _ Hc Ec), (isin_agree df _ w _ _ Hw Ew).
Qed.

Lemma filtered_df_padded_sample :
  filtered_df sample_enriched sample_selection
  = filtered_df sample_enriched sample_selection_padded.
Proof.
  apply (filtered_df_depends_on_members sample_enriched
           sample_selection sample_selection_padded).
  repeat split; intros s v [= <-] Hv; simpl in Hv;
    destruct Hv as [<- | [<- | []]]; reflexivity.
Defined.

(* ================================================================= *)
(** ** Filtering a filtered table *)

Lemma select_select {A : Type} (a b : list bool) (s : list A) :
  Pd.select (Pd.select a b) (Pd.select a s) = Pd.select (Pd.band a b) s.
Proof.
  revert b s. induction a as [|x a IH]; intros [|y b] [|z s]; simpl;
    try reflexivity.
  - now rewrite select_nil_r.
  - destruct x; simpl; [destruct y |]; now rewrite IH.
Qed.

Lemma count_true_select (a b : list bool) :
  Pd.count_true (Pd.select a b) = Pd.count_true (Pd.band a b).
Proof.
  unfold Pd.count_true. revert b.
  induction a as [|x a IH]; intros [|y b]; simpl; try reflexivity.
  destruct x; simpl; [destruct y; simpl |]; now rewrite IH.
Qed.

Lemma band_comm (a b : list bool) : Pd.band a b = Pd.band b a.
Proof.
  revert b. induction a as [|x a IH]; intros [|y b]; simpl; try reflexivity.
  now rewrite IH, andb_comm.
Qed.

Lemma getitem_mask_twice (df : DataFrame) (a b : list bool) :
  Pd.getitem_mask (Pd.getitem_mask df a) (Pd.select a b)
  = Pd.getitem_mask df (Pd.band a b).
Proof.
  unfold Pd.getitem_mask. simpl. rewrite count_true_select. f_equal.
  rewrite map_map. apply map_ext. intros [c s]. simpl.
  now rewrite select_select.
Qed.

(** The mask of a selection on a masked table is the masked mask. *)
Lemma filter_mask_after_mask (df : DataFrame) (sel : selection) (a m : list bool) :
  filter_mask df sel = Ok m ->
  filter_mask (Pd.getitem_mask df a) sel = Ok (Pd.select a m).
Proof.
  intros Hm.
  apply filter_mask_Ok in Hm
    as (y & e & j & r & c & w & Hy & He & Hj & Hr & Hc & Hw & ->).
  apply filter_mask_Ok.
  exists (Pd.select a y), (Pd.select a e), (Pd.select a j),
    (Pd.select a r), (Pd.select a c), (Pd.select a w).
  simpl. rewrite !lookup_select, Hy, He, Hj, Hr, Hc, Hw. simpl.
  repeat (split; [reflexivity |]).
  unfold mask_of, Pd.isin. now rewrite <- !select_map, <- !select_band.
Qed.

Lemma filter_mask_defined (df : DataFrame) (s1 s2 : selection) (m1 : list bool) :
  filter_mask df s1 = Ok m1 -> exists m2, filter_mask df s2 = Ok m2.
Proof.
  intros H. apply filter_mask_Ok in H
    as (y & e & j & r & c & w & Hy & He & Hj & Hr & Hc & Hw & _).
  eexists. apply filter_mask_Ok. exists y, e, j, r, c, w.
  repeat split; eassumption || reflexivity.
Qed.

(** Filtering by [s1] and then by [s2] selects by the conjunction of the
    two masks. *)
Lemma filtered_df_twice (df a : DataFrame) (s1 s2 : selection) :
  filtered_df df s1 = Ok a ->
  exists m1 m2,
    filter_mask df s1 = Ok m1 /\ filter_mask df s2 = Ok m2
    /\ a = Pd.getitem_mask df m1
    /\ filtered_df a s2 = Ok (Pd.getitem_mask df (Pd.band m1 m2)).
Proof.
  unfold filtered_df at 1.
  destruct (filter_mask df s1) as [m1|] eqn:H1; simpl; [| discriminate].
  intros [= <-]. destruct (filter_mask_defined df s1 s2 m1 H1) as [m2 H2].
  exists m1, m2. repeat split; try assumption.
  unfold filtered_df. rewrite (filter_mask_after_mask df s2 m1 m2 H2). simpl.
  now rewrite getitem_mask_twice.
Qed.

(** X16: two filters commute: filtering by one selection and then by
    another gives the table that the two filters give in the other
    order. *)
Theorem filtered_df_commutes (df a b : DataFrame) (s1 s2 : selection) :
  filtered_df df s1 = Ok a ->
  filtered_df a s2 = Ok b ->
  exists a', filtered_df df s2 = Ok a' /\ filtered_df a' s1 = Ok b.
Proof.
  intros Ha Hb.
  destruct (filtered_df_twice df a s1 s2 Ha) as (m1 & m2 & H1 & H2 & -> & Hab).
  rewrite Hb in Hab. injection Hab as ->.
  exists (Pd.getitem_mask df m2). split.
  - unfold filtered_df. now rewrite H2.
  - assert (Ha' : filtered_df df s2 = Ok (Pd.getitem_mask df m2))
      by (unfold filtered_df; now rewrite H2).
    destruct (filtered_df_twice df _ s2 s1 Ha') as (n2 & n1 & E2 & E1 & _ & Hba).
    rewrite H2 in E2. rewrite H1 in E1. injection E2 as <-. injection E1 as <-.
    now rewrite Hba, band_comm.
Qed.

Lemma filtered_df_commutes_sample :
  exists a', filtered_df sample_enriched sample_narrow = Ok a'
             /\ filtered_df a' sample_selection = Ok sample_narrowed.
Proof.
  apply (filtered_df_commutes sample_enriched sample_filtered sample_narrowed
           sample_selection sample_narrow); reflexivity.
Defined.

Lemma row_member_subset (r : row) (name : string) (a b : list value) :
  subset a b -> row_member r name a = true -> row_member r name b = true.
Proof.
  unfold row_member, subset, member. intros H.
  destruct (row_get r name) as [v|]; [apply H | discriminate].
Qed.

Lemma row_passes_subset (s1 s2 : selection) (r : row) :
  sel_subset s1 s2 -> row_passes s1 r = true -> row_passes s2 r = true.
Proof.
  intros (Hy & He & Hj & Hr & Hc & Hw). unfold row_passes.
  rewrite !andb_true_iff. intros (((((Py & Pe) & Pj) & Pr) & Pc) & Pw).
  repeat split; eapply row_member_subset; eassumption.
Qed.

Lemma count_true_band_le (a b : list bool) :
  Pd.count_true (Pd.band a b) <= Pd.count_true a.
Proof.
  unfold Pd.count_true. revert b.
  induction a as [|x a IH]; intros [|y b]; simpl; try lia.
  specialize (IH b). destruct x, y; simpl; lia.
Qed.

(** X17: narrowing a selection can be done on the filtered table: when
    every allowed set of the second selection is included in that of the
    first, filtering the first result by the second selection gives what
    the second selection gives on the whole table, and this has at most as
    many rows as the first result. *)
Theorem narrowing_a_filtered_table (df a : DataFrame) (s1 s2 : selection) :
  Pd.wf df = true ->
  sel_subset s2 s1 ->
  filtered_df df s1 = Ok a ->
  filtered_df a s2 = filtered_df df s2
  /\ exists b, filtered_df df s2 = Ok b /\ nrows b <= nrows a.
Proof.
  intros Hwf Hsub Ha.
  destruct (filtered_df_twice df a s1 s2 Ha) as (m1 & m2 & H1 & H2 & -> & Hab).
  assert (Hband : Pd.band m1 m2 = m2).
  { rewrite (filter_mask_rows s1 df m1 Hwf H1), (filter_mask_rows s2 df m2 Hwf H2).
    rewrite band_map. apply map_ext. intros r.
    destruct (row_passes s2 r) eqn:P2; [| apply andb_false_r].
    now rewrite (row_passes_subset s2 s1 r Hsub P2). }
  assert (Hb : filtered_df df s2 = Ok (Pd.getitem_mask df m2))
    by (unfold filtered_df; now rewrite H2).
  split.
  - now rewrite Hab, Hb, Hband.
  - exists (Pd.getitem_mask df m2). split; [exact Hb |].
    simpl. rewrite <- Hband at 1. apply count_true_band_le.
Qed.

Lemma narrowing_the_sample :
  filtered_df sample_filtered sample_narrow
  = filtered_df sample_enriched sample_narrow
  /\ exists b, filtered_df sample_enriched sample_narrow = Ok b
               /\ nrows b <= nrows sample_filtered.
Proof.
  apply (narrowing_a_filtered_table sample_enriched sample_filtered
           sample_selection sample_narrow); [reflexivity | | reflexivity].
  repeat split; intros v; unfold member; simpl;
    repeat match goal with
           | |- context [value_eqb v ?x] => destruct (value_eqb v x); simpl
           end; auto.
Defined.

Lemma member_inter (v : value) (a b : list value) :
  member v (inter a b) = member v a && member v b.
Proof.
  unfold inter. induction a as [|x a IH]; simpl; [reflexivity |].
  destruct (member x b) eqn:Hx; simpl.
  - rewrite IH. destruct (value_eqb v x) eqn:E; simpl; [| reflexivity].
    apply value_eqb_eq in E. subst. now rewrite Hx.
  - rewrite IH. destruct (value_eqb v x) eqn:E; simpl; [| reflexivity].
    apply value_eqb_eq in E. subst. rewrite Hx. apply andb_false_r.
Qed.

Lemma row_member_inter (r : row) (name : string) (a b : list value) :
  row_member r name (inter a b) = row_member r name a && row_member r name b.
Proof.
  unfold row_member. destruct (row_get r name) as [v|]; [| reflexivity].
  apply member_inter.
Qed.

Lemma row_passes_inter (s1 s2 : selection) (r : row) :
  row_passes (sel_inter s1 s2) r = row_passes s1 r && row_passes s2 r.
Proof.
  unfold row_passes, sel_inter. simpl. rewrite !row_member_inter.
  repeat match goal with
         | |- context [row_member r ?c ?l] =>
             generalize (row_member r c l); intros []
         end; reflexivity.
Qed.

(** X18: filtering by one selection and then by another is filtering
    once by the selection that allows, in each dimension, the values both
    allow. *)
Theorem filtering_twice_is_intersection (df a : DataFrame) (s1 s2 : selection) :
  Pd.wf df = true ->
  filtered_df df s1 = Ok a ->
  filtered_df a s2 = filtered_df df (sel_inter s1 s2).
Proof.
  intros Hwf Ha.
  destruct (filtered_df_twice df a s1 s2 Ha) as (m1 & m2 & H1 & H2 & -> & Hab).
  destruct (filter_mask_defined df s1 (sel_inter s1 s2) m1 H1) as [m3 H3].
  rewrite Hab. unfold filtered_df at 1. rewrite H3. simpl. do 2 f_equal.
  rewrite (filter_mask_rows s1 df m1 Hwf H1), (filter_mask_rows s2 df m2 Hwf H2),
    (filter_mask_rows _ df m3 Hwf H3), band_map.
  apply map_ext. intros r. symmetry. apply row_passes_inter.
Qed.

Lemma filtering_sample_twice :
  filtered_df sample_filtered sample_narrow
  = filtered_df sample_enriched (sel_inter sample_selection sample_narrow).
Proof.
  apply (filtering_twice_is_intersection sample_enriched sample_filtered
           sample_selection sample_narrow); reflexivity.
Defined.

(** X19: on a table without rows that has the six filter columns the
    filter returns the table itself, whatever the selection. *)
Theorem filtered_df_empty_table (df : DataFrame) (sel : selection) :
  Pd.wf df = true ->
  enriched_schema df = true ->
  nrows df = 0 ->
  filtered_df df sel = Ok df.
Proof.
  intros Hwf Hs Hn. destruct (filter_mask_total sel df Hs) as [m Hm].
  assert (Hlen := length_filter_mask sel df m Hwf Hm).
  rewrite Hn in Hlen. apply length_zero_iff_nil in Hlen. subst m.
  unfold filtered_df. rewrite Hm. simpl. f_equal.
  destruct df as [n cols]. unfold Pd.getitem_mask, Pd.wf in *. simpl in *.
  subst n. f_equal. rewrite forallb_forall in Hwf.
  rewrite <- (map_id cols) at 2. apply map_ext_in. intros [c s] Hin. simpl.
  specialize (Hwf (c, s) Hin). apply Nat.eqb_eq in Hwf. simpl in Hwf.
  apply length_zero_iff_nil in Hwf. now subst.
Qed.

Lemma filtered_df_no_rows_sample :
  filtered_df sample_no_rows sample_selection = Ok sample_no_rows.
Proof.
  apply (filtered_df_empty_table sample_no_rows sample_selection); reflexivity.
Defined.
